(** * pythermophy: the cubic equations of state of [cubic_eos.py]

    A shallow embedding of the three classes [RedlichKwong],
    [SoaveRedlichKwong] and [PengRobinson] of
    [src/pythermophy/cubic_eos.py], and the properties of their attraction
    coefficient [a(T)] and of its two temperature derivatives.

    Numbers.  Python floats are idealised as real numbers: rounding,
    overflow, infinities and NaN are outside the model.  What Python does
    when an operation leaves the reals is kept: a division by zero raises
    [ZeroDivisionError], and a negative base raised to the power [0.5]
    has no real value (Python 2 raises [ValueError], Python 3 answers with
    a complex number); the model raises [ValueError] there.

    The parent class.  [CubicEOS] lives in [cubic_parent.py], which is not
    part of the embedded file.  The three classes use two things of it: the
    class attribute [self.R], read before the parent constructor runs, and
    the parent constructor itself, called last with four numbers and the
    fluid.  Both are taken as parameters (the class [CubicEOS] below), so
    the theorems of this file hold for any parent.  The parent constructor
    is taken to leave alone the attributes the subclass has set before
    calling it. *)

From Stdlib Require Import Reals Lra Psatz.

Local Open Scope R_scope.

(** ** Exceptions and results *)

(** [ConfigError] is the error kind the interface description names for
    invalid fluid constants; no statement of [cubic_eos.py] raises it. *)
Inductive exn : Set :=
| ZeroDivisionError
| ValueError
| ConfigError.

Inductive result (A : Type) : Type :=
| Ok (a : A)
| Raise (e : exn).

Arguments Ok {A} a.
Arguments Raise {A} e.

Definition bind {A B : Type} (m : result A) (k : A -> result B) : result B :=
  match m with
  | Ok a => k a
  | Raise e => Raise e
  end.

Notation "x <- m ;; k" := (bind m (fun x => k))
  (at level 61, m at next level, right associativity).

(** The number a computation returned, [0] when it raised.  Used only to
    read a method as a real function of the temperature. *)
Definition value (m : result R) : R :=
  match m with
  | Ok a => a
  | Raise _ => 0
  end.

(** ** Python arithmetic on reals *)

(** [x / y] *)
Definition py_div (x y : R) : result R :=
  if Req_dec_T y 0 then Raise ZeroDivisionError else Ok (x / y).

(** [x ** 0.5] *)
Definition py_pow_half (x : R) : result R :=
  if Rlt_dec x 0 then Raise ValueError else Ok (sqrt x).

(** ** The fluid *)

Module Fluid.
  (** The attributes of a [Fluid] instance that [cubic_eos.py] reads. *)
Record t : Type := mk {
  p_crit : R;   (* Pa *)
  T_crit : R;   (* K *)
  acentric : R
}.
End Fluid.

(** ** The parent class *)

Class CubicEOS : Type := {
  (** the class attribute [self.R] *)
  gas_R : R;
  (** what [CubicEOS.__init__] establishes on the instance *)
  parent : Type;
  (** [CubicEOS.__init__(self, b1, b2, b3, b4, fluid)] *)
  CubicEOS_init : R -> R -> R -> R -> Fluid.t -> result parent
}.

(** ** class RedlichKwong(CubicEOS) *)

Module RedlichKwong.
Section WithParent.
Context {P : CubicEOS}.

Record t : Type := mk {
  p_crit : R;
  T_crit : R;
  a0 : R;
  super : parent
}.

Definition __init__ (fluid : Fluid.t) : result t :=
  let p_crit := Fluid.p_crit fluid in
  let T_crit := Fluid.T_crit fluid in
  a0 <- py_div (0.42748 * gas_R ^ 2 * T_crit ^ 2) p_crit ;;
  b1 <- py_div (0.08664 * gas_R * T_crit) p_crit ;;
  s <- CubicEOS_init b1 0 b1 0 fluid ;;
  Ok (mk p_crit T_crit a0 s).

Definition get_a (self : t) (T : R) : result R :=
  Tr <- py_div T (T_crit self) ;;
  rt <- py_pow_half Tr ;;
  py_div (a0 self) rt.

Definition get_diff_a_T (self : t) (T : R) : result R :=
  Tr <- py_div T (T_crit self) ;;
  q <- py_div (-0.5 * a0 self) T ;;
  rt <- py_pow_half Tr ;;
  py_div q rt.

Definition get_double_diff_a_T (self : t) (T : R) : result R :=
  Tr <- py_div T (T_crit self) ;;
  q <- py_div (0.75 * a0 self) (T ^ 2) ;;
  rt <- py_pow_half Tr ;;
  py_div q rt.

End WithParent.
End RedlichKwong.

(** ** class SoaveRedlichKwong(CubicEOS) *)

Module SoaveRedlichKwong.
Section WithParent.
Context {P : CubicEOS}.

Record t : Type := mk {
  acentric : R;
  p_crit : R;
  T_crit : R;
  a0 : R;
  kappa : R;
  super : parent
}.

Definition __init__ (fluid : Fluid.t) : result t :=
  let acentric := Fluid.acentric fluid in
  let p_crit := Fluid.p_crit fluid in
  let T_crit := Fluid.T_crit fluid in
  a0 <- py_div (0.42748 * gas_R ^ 2 * T_crit ^ 2) p_crit ;;
  b1 <- py_div (0.08664 * gas_R * T_crit) p_crit ;;
  let kappa := 0.48508 + 1.55171 * acentric - 0.15613 * acentric ^ 2 in
  s <- CubicEOS_init b1 0 b1 0 fluid ;;
  Ok (mk acentric p_crit T_crit a0 kappa s).

Definition get_a (self : t) (T : R) : result R :=
  Tr <- py_div T (T_crit self) ;;
  rt <- py_pow_half Tr ;;
  let alpha := (1 + kappa self * (1 - rt)) ^ 2 in
  Ok (alpha * a0 self).

Definition get_diff_a_T (self : t) (T : R) : result R :=
  Tr <- py_div T (T_crit self) ;;
  rt <- py_pow_half Tr ;;
  let alpha0 := 1 + kappa self * (1 - rt) in
  q <- py_div (a0 self * kappa self) T ;;
  rt' <- py_pow_half Tr ;;
  Ok (- q * rt' * alpha0).

Definition get_double_diff_a_T (self : t) (T : R) : result R :=
  Tr <- py_div T (T_crit self) ;;
  rt <- py_pow_half Tr ;;
  let alpha0 := 1 + kappa self * (1 - rt) in
  q1 <- py_div (0.5 * a0 self * kappa self ^ 2) (T ^ 2) ;;
  q2 <- py_div (0.5 * a0 self * kappa self) (T ^ 2) ;;
  rt' <- py_pow_half Tr ;;
  Ok (q1 * Tr + q2 * rt' * alpha0).

End WithParent.
End SoaveRedlichKwong.

(** ** class PengRobinson(CubicEOS) *)

Module PengRobinson.
Section WithParent.
Context {P : CubicEOS}.

Record t : Type := mk {
  acentric : R;
  p_crit : R;
  T_crit : R;
  a0 : R;
  kappa : R;
  super : parent
}.

Definition __init__ (fluid : Fluid.t) : result t :=
  let acentric := Fluid.acentric fluid in
  let p_crit := Fluid.p_crit fluid in
  let T_crit := Fluid.T_crit fluid in
  a0 <- py_div (0.45724 * gas_R ^ 2 * T_crit ^ 2) p_crit ;;
  b1 <- py_div (0.07780 * gas_R * T_crit) p_crit ;;
  let kappa := 0.37464 + 1.54226 * acentric - 0.26992 * acentric ^ 2 in
  s <- CubicEOS_init b1 0 (2 * b1) (- b1 ^ 2) fluid ;;
  Ok (mk acentric p_crit T_crit a0 kappa s).

Definition get_a (self : t) (T : R) : result R :=
  Tr <- py_div T (T_crit self) ;;
  rt <- py_pow_half Tr ;;
  let alpha := (1 + kappa self * (1 - rt)) ^ 2 in
  Ok (alpha * a0 self).

Definition get_diff_a_T (self : t) (T : R) : result R :=
  Tr <- py_div T (T_crit self) ;;
  rt <- py_pow_half Tr ;;
  let alpha0 := 1 + kappa self * (1 - rt) in
  q <- py_div (a0 self * kappa self) T ;;
  rt' <- py_pow_half Tr ;;
  Ok (- q * rt' * alpha0).

Definition get_double_diff_a_T (self : t) (T : R) : result R :=
  Tr <- py_div T (T_crit self) ;;
  rt <- py_pow_half Tr ;;
  let alpha0 := 1 + kappa self * (1 - rt) in
  q1 <- py_div (0.5 * a0 self * kappa self ^ 2) (T ^ 2) ;;
  q2 <- py_div (0.5 * a0 self * kappa self) (T ^ 2) ;;
  rt' <- py_pow_half Tr ;;
  Ok (q1 * Tr + q2 * rt' * alpha0).

End WithParent.
End PengRobinson.

(** ** The formulas of the attraction coefficient

    The formulas as the design document writes them, as functions on the
    reals; the methods are compared with them below. *)

Section Formulas.
Variables (a0 kappa Tc : R).

(** RK: [a = a0·Tr^-0.5], [da/dT = -0.5·a0/T·Tr^-0.5],
    [d2a/dT2 = 0.75·a0/T²·Tr^-0.5]. *)
Definition rk_a (T : R) : R := a0 * Rpower (T / Tc) (- 0.5).
Definition rk_da (T : R) : R := - 0.5 * a0 / T * Rpower (T / Tc) (- 0.5).
Definition rk_d2a (T : R) : R := 0.75 * a0 / T ^ 2 * Rpower (T / Tc) (- 0.5).

(** SRK and PR: [α0 = 1 + κ(1 - √Tr)], [a = α0²·a0],
    [da/dT = -(a0·κ/T)·√Tr·α0],
    [d2a/dT2 = 0.5·a0·κ²/T²·Tr + 0.5·a0·κ/T²·√Tr·α0]. *)
Definition soave_alpha0 (T : R) : R := 1 + kappa * (1 - sqrt (T / Tc)).
Definition soave_a (T : R) : R := soave_alpha0 T ^ 2 * a0.
Definition soave_da (T : R) : R :=
  - (a0 * kappa / T) * sqrt (T / Tc) * soave_alpha0 T.
Definition soave_d2a (T : R) : R :=
  0.5 * a0 * kappa ^ 2 / T ^ 2 * (T / Tc)
  + 0.5 * a0 * kappa / T ^ 2 * sqrt (T / Tc) * soave_alpha0 T.
End Formulas.

(** ** Derivative methods

    What it is for a method to be the derivative of another. *)

(** At every positive temperature [f] and [f'] return, and what [f']
    returns is the derivative over the reals of the function [f] computes. *)
Definition derivative_on_positive (f f' : R -> result R) : Prop :=
  forall T : R, 0 < T ->
    exists a d : R,
      f T = Ok a /\ f' T = Ok d /\ derivable_pt_lim (fun t => value (f t)) T d.

(** The temperature at which the factor [α0] of SRK and PR vanishes. *)
Definition soave_zero_temperature (kappa Tc : R) : R := Tc * (1 + / kappa) ^ 2.

(** The acentric factor at which the [kappa] of Peng-Robinson is [k]. *)
Definition pr_acentric_of_kappa (k : R) : R :=
  (1.54226 - sqrt (1.54226 ^ 2 - 4 * 0.26992 * (k - 0.37464))) / (2 * 0.26992).

(** ** A parent and a fluid for the examples *)

(** The arguments of one call of the parent constructor. *)
Record super_call : Type := {
  b1 : R;
  b2 : R;
  b3 : R;
  b4 : R;
  of_fluid : Fluid.t
}.

(** Modelled from the spec: a [CubicEOS] ([cubic_parent.py] is not among the
    embedded sources) that owns the covolume and the shape constants it is
    constructed with, and whose gas constant is the [R = 8.314] of the
    methane scenario.  Its constructor accepts every argument.  No theorem
    depends on this choice: the examples are run with it. *)
Definition keeping_parent : CubicEOS := {|
  gas_R := 8.314;
  parent := super_call;
  CubicEOS_init := fun b1 b2 b3 b4 fluid => Ok (Build_super_call b1 b2 b3 b4 fluid)
|}.

(** The methane-like fluid of the scenarios. *)
Definition methane : Fluid.t :=
  Fluid.mk 4600000 190.6 0.011.

(** The instances the three constructors build from methane. *)
Definition methane_rk : @RedlichKwong.t keeping_parent :=
  let b := 0.08664 * 8.314 * 190.6 / 4600000 in
  @RedlichKwong.mk keeping_parent 4600000 190.6 (0.42748 * 8.314 ^ 2 * 190.6 ^ 2 / 4600000)
    (Build_super_call b 0 b 0 methane).

Definition methane_srk : @SoaveRedlichKwong.t keeping_parent :=
  let b := 0.08664 * 8.314 * 190.6 / 4600000 in
  @SoaveRedlichKwong.mk keeping_parent 0.011 4600000 190.6
    (0.42748 * 8.314 ^ 2 * 190.6 ^ 2 / 4600000)
    (0.48508 + 1.55171 * 0.011 - 0.15613 * 0.011 ^ 2)
    (Build_super_call b 0 b 0 methane).

Definition methane_pr : @PengRobinson.t keeping_parent :=
  let b := 0.07780 * 8.314 * 190.6 / 4600000 in
  @PengRobinson.mk keeping_parent 0.011 4600000 190.6
    (0.45724 * 8.314 ^ 2 * 190.6 ^ 2 / 4600000)
    (0.37464 + 1.54226 * 0.011 - 0.26992 * 0.011 ^ 2)
    (Build_super_call b 0 (2 * b) (- b ^ 2) methane).

(** Methane with another acentric factor. *)
Definition methane_heavier : Fluid.t := Fluid.mk 4600000 190.6 0.5.

(** A fluid whose critical pressure is zero. *)
Definition no_pressure : Fluid.t := Fluid.mk 0 190.6 0.011.

(** A fluid whose critical constants are both negative. *)
Definition negative_constants : Fluid.t := Fluid.mk (- 4600000) (- 190.6) 0.011.

(** A fluid for SRK and a fluid for PR whose instances store the same
    [(a0, kappa, T_crit)]. *)
Definition srk_twin : Fluid.t :=
  Fluid.mk (4600000 * 0.42748 / 0.45724) 190.6 0.

Definition pr_twin : Fluid.t :=
  Fluid.mk 4600000 190.6 (pr_acentric_of_kappa 0.48508).

(** A fluid for SRK and a fluid for PR, each with a temperature at which
    the factor [α0] of its class is exactly zero: with these critical
    temperatures [√(T/T_crit)] is the rational [1 + 1/κ]. *)
Definition srk_vanishing : Fluid.t := Fluid.mk 4600000 147064129 0.

Definition srk_vanishing_T : R := 1378414129.

Definition pr_vanishing : Fluid.t := Fluid.mk 4600000 5086788562881 0.05.

Definition pr_vanishing_T : R := 52640698562881.

(** The instances the constructors build from them. *)
Definition srk_vanishing_eos : @SoaveRedlichKwong.t keeping_parent :=
  let b := 0.08664 * 8.314 * 147064129 / 4600000 in
  @SoaveRedlichKwong.mk keeping_parent 0 4600000 147064129
    (0.42748 * 8.314 ^ 2 * 147064129 ^ 2 / 4600000)
    (0.48508 + 1.55171 * 0 - 0.15613 * 0 ^ 2)
    (Build_super_call b 0 b 0 srk_vanishing).

Definition pr_vanishing_eos : @PengRobinson.t keeping_parent :=
  let b := 0.07780 * 8.314 * 5086788562881 / 4600000 in
  @PengRobinson.mk keeping_parent 0.05 4600000 5086788562881
    (0.45724 * 8.314 ^ 2 * 5086788562881 ^ 2 / 4600000)
    (0.37464 + 1.54226 * 0.05 - 0.26992 * 0.05 ^ 2)
    (Build_super_call b 0 (2 * b) (- b ^ 2) pr_vanishing).

(** A fluid whose critical temperature is zero. *)
Definition no_temperature : Fluid.t := Fluid.mk 4600000 0 0.011.

(** * Properties *)

(** ** Python arithmetic where it is defined *)

Lemma py_div_ok (x y : R) : y <> 0 -> py_div x y = Ok (x / y).
Proof.
  intros Hy. unfold py_div. destruct (Req_dec_T y 0) as [E | _]; [contradiction | reflexivity].
Qed.

Lemma py_div_zero (x : R) : py_div x 0 = Raise ZeroDivisionError.
Proof.
  unfold py_div. destruct (Req_dec_T 0 0) as [_ | N]; [reflexivity | now elim N].
Qed.

Lemma py_pow_half_ok (x : R) : 0 <= x -> py_pow_half x = Ok (sqrt x).
Proof.
  intros Hx. unfold py_pow_half. destruct (Rlt_dec x 0) as [L | _]; [lra | reflexivity].
Qed.

Lemma bind_Ok_inv {A B : Type} (m : result A) (k : A -> result B) (b : B) :
  bind m k = Ok b -> exists a, m = Ok a /\ k a = Ok b.
Proof.
  destruct m as [a | e]; simpl; intros H; [exists a; split; [reflexivity | exact H] | discriminate].
Qed.

Lemma py_div_Ok_inv (x y q : R) : py_div x y = Ok q -> y <> 0 /\ q = x / y.
Proof.
  unfold py_div. destruct (Req_dec_T y 0) as [E | N]; intros H; [discriminate |].
  injection H as <-. split; [exact N | reflexivity].
Qed.

(** Peels the binds of a computation known to return. *)
Ltac invert_ok H :=
  repeat match type of H with
  | bind _ _ = Ok _ =>
      let a := fresh "v" in let Ha := fresh "Hv" in
      apply bind_Ok_inv in H; destruct H as (a & Ha & H)
  end.

(** ** What the constructors store *)

Section Constructors.
Context {P : CubicEOS}.

Lemma RedlichKwong_init_inv (fluid : Fluid.t) (eos : RedlichKwong.t) :
  RedlichKwong.__init__ fluid = Ok eos ->
  Fluid.p_crit fluid <> 0 /\
  RedlichKwong.T_crit eos = Fluid.T_crit fluid /\
  RedlichKwong.a0 eos =
    0.42748 * gas_R ^ 2 * Fluid.T_crit fluid ^ 2 / Fluid.p_crit fluid.
Proof.
  unfold RedlichKwong.__init__. intros H. invert_ok H.
  apply py_div_Ok_inv in Hv as [Hp ->]. injection H as <-. simpl. auto.
Qed.

Lemma SoaveRedlichKwong_init_inv (fluid : Fluid.t) (eos : SoaveRedlichKwong.t) :
  SoaveRedlichKwong.__init__ fluid = Ok eos ->
  Fluid.p_crit fluid <> 0 /\
  SoaveRedlichKwong.T_crit eos = Fluid.T_crit fluid /\
  SoaveRedlichKwong.a0 eos =
    0.42748 * gas_R ^ 2 * Fluid.T_crit fluid ^ 2 / Fluid.p_crit fluid /\
  SoaveRedlichKwong.kappa eos =
    0.48508 + 1.55171 * Fluid.acentric fluid - 0.15613 * Fluid.acentric fluid ^ 2.
Proof.
  unfold SoaveRedlichKwong.__init__. intros H. invert_ok H.
  apply py_div_Ok_inv in Hv as [Hp ->]. injection H as <-. simpl. auto.
Qed.

Lemma PengRobinson_init_inv (fluid : Fluid.t) (eos : PengRobinson.t) :
  PengRobinson.__init__ fluid = Ok eos ->
  Fluid.p_crit fluid <> 0 /\
  PengRobinson.T_crit eos = Fluid.T_crit fluid /\
  PengRobinson.a0 eos =
    0.45724 * gas_R ^ 2 * Fluid.T_crit fluid ^ 2 / Fluid.p_crit fluid /\
  PengRobinson.kappa eos =
    0.37464 + 1.54226 * Fluid.acentric fluid - 0.26992 * Fluid.acentric fluid ^ 2.
Proof.
  unfold PengRobinson.__init__. intros H. invert_ok H.
  apply py_div_Ok_inv in Hv as [Hp ->]. injection H as <-. simpl. auto.
Qed.

End Constructors.

Lemma Rpower_minus_half (x : R) : 0 < x -> Rpower x (- 0.5) = / sqrt x.
Proof.
  intros Hx. replace (- 0.5) with (- / 2) by lra.
  rewrite Rpower_Ropp. f_equal. now apply Rpower_sqrt.
Qed.

(** ** The methods where the temperatures are positive *)

(** Evaluates a method body whose divisors are nonzero and whose roots are
    of nonnegative numbers. *)
Ltac run_method :=
  repeat first
    [ rewrite py_div_ok by first [assumption | lra | nra]
    | rewrite py_pow_half_ok by first [assumption | lra]
    | progress cbn [bind] ].

Section ClosedForms.
Context {P : CubicEOS}.
Variable T : R.
Hypothesis HT : 0 < T.

Section RK.
Variable self : RedlichKwong.t.
Hypothesis Hc : 0 < RedlichKwong.T_crit self.

Let Tr_pos : 0 < T / RedlichKwong.T_crit self.
Proof. now apply Rdiv_lt_0_compat. Qed.

Let rt_neq : sqrt (T / RedlichKwong.T_crit self) <> 0.
Proof. apply Rgt_not_eq, sqrt_lt_R0, Tr_pos. Qed.

Lemma RedlichKwong_get_a_pos :
  RedlichKwong.get_a self T =
    Ok (rk_a (RedlichKwong.a0 self) (RedlichKwong.T_crit self) T).
Proof.
  unfold RedlichKwong.get_a, rk_a. run_method.
  now rewrite Rpower_minus_half.
Qed.

Lemma RedlichKwong_get_diff_a_T_pos :
  RedlichKwong.get_diff_a_T self T =
    Ok (rk_da (RedlichKwong.a0 self) (RedlichKwong.T_crit self) T).
Proof.
  unfold RedlichKwong.get_diff_a_T, rk_da. run_method.
  now rewrite Rpower_minus_half.
Qed.

Lemma RedlichKwong_get_double_diff_a_T_pos :
  RedlichKwong.get_double_diff_a_T self T =
    Ok (rk_d2a (RedlichKwong.a0 self) (RedlichKwong.T_crit self) T).
Proof.
  unfold RedlichKwong.get_double_diff_a_T, rk_d2a.
  assert (T ^ 2 <> 0) by nra. run_method.
  now rewrite Rpower_minus_half.
Qed.
End RK.

Section SRK.
Variable self : SoaveRedlichKwong.t.
Hypothesis Hc : 0 < SoaveRedlichKwong.T_crit self.

Let Tr_pos : 0 < T / SoaveRedlichKwong.T_crit self.
Proof. now apply Rdiv_lt_0_compat. Qed.

Lemma SoaveRedlichKwong_get_a_pos :
  SoaveRedlichKwong.get_a self T =
    Ok (soave_a (SoaveRedlichKwong.a0 self) (SoaveRedlichKwong.kappa self)
          (SoaveRedlichKwong.T_crit self) T).
Proof. unfold SoaveRedlichKwong.get_a. now run_method. Qed.

Lemma SoaveRedlichKwong_get_diff_a_T_pos :
  SoaveRedlichKwong.get_diff_a_T self T =
    Ok (soave_da (SoaveRedlichKwong.a0 self) (SoaveRedlichKwong.kappa self)
          (SoaveRedlichKwong.T_crit self) T).
Proof. unfold SoaveRedlichKwong.get_diff_a_T. now run_method. Qed.

Lemma SoaveRedlichKwong_get_double_diff_a_T_pos :
  SoaveRedlichKwong.get_double_diff_a_T self T =
    Ok (soave_d2a (SoaveRedlichKwong.a0 self) (SoaveRedlichKwong.kappa self)
          (SoaveRedlichKwong.T_crit self) T).
Proof.
  unfold SoaveRedlichKwong.get_double_diff_a_T.
  assert (T ^ 2 <> 0) by nra. now run_method.
Qed.
End SRK.

Section PR.
Variable self : PengRobinson.t.
Hypothesis Hc : 0 < PengRobinson.T_crit self.

Let Tr_pos : 0 < T / PengRobinson.T_crit self.
Proof. now apply Rdiv_lt_0_compat. Qed.

Lemma PengRobinson_get_a_pos :
  PengRobinson.get_a self T =
    Ok (soave_a (PengRobinson.a0 self) (PengRobinson.kappa self)
          (PengRobinson.T_crit self) T).
Proof. unfold PengRobinson.get_a. now run_method. Qed.

Lemma PengRobinson_get_diff_a_T_pos :
  PengRobinson.get_diff_a_T self T =
    Ok (soave_da (PengRobinson.a0 self) (PengRobinson.kappa self)
          (PengRobinson.T_crit self) T).
Proof. unfold PengRobinson.get_diff_a_T. now run_method. Qed.

Lemma PengRobinson_get_double_diff_a_T_pos :
  PengRobinson.get_double_diff_a_T self T =
    Ok (soave_d2a (PengRobinson.a0 self) (PengRobinson.kappa self)
          (PengRobinson.T_crit self) T).
Proof.
  unfold PengRobinson.get_double_diff_a_T.
  assert (T ^ 2 <> 0) by nra. now run_method.
Qed.
End PR.

End ClosedForms.

(** ** The constructors where the critical pressure is not zero *)

Section Construction.
Context {P : CubicEOS}.
Variable fluid : Fluid.t.
Hypothesis Hp : Fluid.p_crit fluid <> 0.

Lemma RedlichKwong_init_run :
  RedlichKwong.__init__ fluid =
    let b := 0.08664 * gas_R * Fluid.T_crit fluid / Fluid.p_crit fluid in
    s <- CubicEOS_init b 0 b 0 fluid ;;
    Ok (RedlichKwong.mk (Fluid.p_crit fluid) (Fluid.T_crit fluid)
          (0.42748 * gas_R ^ 2 * Fluid.T_crit fluid ^ 2 / Fluid.p_crit fluid) s).
Proof. unfold RedlichKwong.__init__. now run_method. Qed.

Lemma SoaveRedlichKwong_init_run :
  SoaveRedlichKwong.__init__ fluid =
    let b := 0.08664 * gas_R * Fluid.T_crit fluid / Fluid.p_crit fluid in
    s <- CubicEOS_init b 0 b 0 fluid ;;
    Ok (SoaveRedlichKwong.mk (Fluid.acentric fluid)
          (Fluid.p_crit fluid) (Fluid.T_crit fluid)
          (0.42748 * gas_R ^ 2 * Fluid.T_crit fluid ^ 2 / Fluid.p_crit fluid)
          (0.48508 + 1.55171 * Fluid.acentric fluid
           - 0.15613 * Fluid.acentric fluid ^ 2) s).
Proof. unfold SoaveRedlichKwong.__init__. now run_method. Qed.

Lemma PengRobinson_init_run :
  PengRobinson.__init__ fluid =
    let b := 0.07780 * gas_R * Fluid.T_crit fluid / Fluid.p_crit fluid in
    s <- CubicEOS_init b 0 (2 * b) (- b ^ 2) fluid ;;
    Ok (PengRobinson.mk (Fluid.acentric fluid)
          (Fluid.p_crit fluid) (Fluid.T_crit fluid)
          (0.45724 * gas_R ^ 2 * Fluid.T_crit fluid ^ 2 / Fluid.p_crit fluid)
          (0.37464 + 1.54226 * Fluid.acentric fluid
           - 0.26992 * Fluid.acentric fluid ^ 2) s).
Proof. unfold PengRobinson.__init__. now run_method. Qed.

End Construction.

Lemma methane_p_crit : Fluid.p_crit methane <> 0.
Proof. simpl. lra. Qed.

Lemma methane_rk_built : RedlichKwong.__init__ methane = Ok methane_rk.
Proof. rewrite (RedlichKwong_init_run methane methane_p_crit). reflexivity. Defined.

Lemma methane_srk_built : SoaveRedlichKwong.__init__ methane = Ok methane_srk.
Proof. rewrite (SoaveRedlichKwong_init_run methane methane_p_crit). reflexivity. Defined.

Lemma methane_pr_built : PengRobinson.__init__ methane = Ok methane_pr.
Proof. rewrite (PengRobinson_init_run methane methane_p_crit). reflexivity. Defined.

(** ** The values of the attraction coefficient *)

(** C1. For a fluid with positive critical pressure and temperature and a
    positive temperature [T], [get_a] of the Soave-Redlich-Kwong instance and
    of the Peng-Robinson instance built from the fluid return [α0²·a0], where
    [α0 = 1 + κ·(1 − √(T/T_crit))], with [a0 = 0.42748·R²·T_crit²/p_crit]
    and [κ = 0.48508 + 1.55171·ω − 0.15613·ω²] for SRK, and
    [a0 = 0.45724·R²·T_crit²/p_crit] and
    [κ = 0.37464 + 1.54226·ω − 0.26992·ω²] for PR. *)
Theorem C1_get_a_soave_formula {P : CubicEOS} (fluid : Fluid.t) (T : R) :
  0 < Fluid.p_crit fluid -> 0 < Fluid.T_crit fluid -> 0 < T ->
  let omega := Fluid.acentric fluid in
  let alpha0 kappa := 1 + kappa * (1 - sqrt (T / Fluid.T_crit fluid)) in
  (forall eos, SoaveRedlichKwong.__init__ fluid = Ok eos ->
     let a0 := 0.42748 * gas_R ^ 2 * Fluid.T_crit fluid ^ 2 / Fluid.p_crit fluid in
     let kappa := 0.48508 + 1.55171 * omega - 0.15613 * omega ^ 2 in
     SoaveRedlichKwong.get_a eos T = Ok (alpha0 kappa ^ 2 * a0)) /\
  (forall eos, PengRobinson.__init__ fluid = Ok eos ->
     let a0 := 0.45724 * gas_R ^ 2 * Fluid.T_crit fluid ^ 2 / Fluid.p_crit fluid in
     let kappa := 0.37464 + 1.54226 * omega - 0.26992 * omega ^ 2 in
     PengRobinson.get_a eos T = Ok (alpha0 kappa ^ 2 * a0)).
Proof.
  intros Hp Hc HT omega alpha0. split; intros eos Hb a0 kappa.
  - apply SoaveRedlichKwong_init_inv in Hb as (_ & Ec & Ea & Ek).
    rewrite SoaveRedlichKwong_get_a_pos by (rewrite ?Ec; assumption).
    unfold soave_a, soave_alpha0. now rewrite Ec, Ea, Ek.
  - apply PengRobinson_init_inv in Hb as (_ & Ec & Ea & Ek).
    rewrite PengRobinson_get_a_pos by (rewrite ?Ec; assumption).
    unfold soave_a, soave_alpha0. now rewrite Ec, Ea, Ek.
Qed.

Lemma C1_witness :
  0 < Fluid.p_crit methane /\ 0 < Fluid.T_crit methane /\ 0 < 250 /\
  SoaveRedlichKwong.__init__ methane = Ok methane_srk /\
  PengRobinson.__init__ methane = Ok methane_pr /\
  let alpha0 kappa := 1 + kappa * (1 - sqrt (250 / 190.6)) in
  SoaveRedlichKwong.get_a methane_srk 250 =
    Ok (alpha0 (0.48508 + 1.55171 * 0.011 - 0.15613 * 0.011 ^ 2) ^ 2
        * (0.42748 * 8.314 ^ 2 * 190.6 ^ 2 / 4600000)) /\
  PengRobinson.get_a methane_pr 250 =
    Ok (alpha0 (0.37464 + 1.54226 * 0.011 - 0.26992 * 0.011 ^ 2) ^ 2
        * (0.45724 * 8.314 ^ 2 * 190.6 ^ 2 / 4600000)).
Proof.
  assert (Hp : 0 < Fluid.p_crit methane) by (simpl; lra).
  assert (Hc : 0 < Fluid.T_crit methane) by (simpl; lra).
  assert (HT : 0 < 250) by lra.
  destruct (@C1_get_a_soave_formula keeping_parent methane 250 Hp Hc HT) as [Hs Hr].
  split; [exact Hp |]. split; [exact Hc |]. split; [exact HT |].
  split; [exact methane_srk_built |]. split; [exact methane_pr_built |].
  split; [exact (Hs methane_srk methane_srk_built) | exact (Hr methane_pr methane_pr_built)].
Defined.

(** ** Derivatives of the formulas *)

(** Decimal constants are rationals injected in the reals; [field] wants
    them as explicit quotients of integers. *)
Ltac decimals := unfold Q2R; cbn [QArith_base.Qnum QArith_base.Qden].

Lemma derivable_pt_lim_product (f g : R -> R) (x lf lg l : R) :
  derivable_pt_lim f x lf -> derivable_pt_lim g x lg ->
  l = lf * g x + f x * lg ->
  derivable_pt_lim (fun t => f t * g t) x l.
Proof.
  intros Hf Hg ->. exact (derivable_pt_lim_mult f g x lf lg Hf Hg).
Qed.

Lemma derivable_pt_lim_quotient (c : R) (n : nat) (x : R) :
  x <> 0 ->
  derivable_pt_lim (fun t => c / t ^ n) x (- (c * (INR n * x ^ pred n)) / (x ^ n) ^ 2).
Proof.
  intros Hx.
  assert (Hn : x ^ n <> 0) by now apply pow_nonzero.
  pose proof (derivable_pt_lim_div (fct_cte c) (fun t => t ^ n) x 0 (INR n * x ^ pred n)
                (derivable_pt_lim_const c x) (derivable_pt_lim_pow x n) Hn) as H.
  replace (- (c * (INR n * x ^ pred n)) / (x ^ n) ^ 2)
    with ((0 * x ^ n - INR n * x ^ pred n * fct_cte c x) / Rsqr (x ^ n)).
  - exact H.
  - unfold fct_cte, Rsqr. field. exact Hn.
Qed.

Lemma derivable_pt_lim_reciprocal (c x : R) :
  x <> 0 -> derivable_pt_lim (fun t => c / t) x (- c / x ^ 2).
Proof.
  intros Hx.
  apply (derivable_pt_lim_ext (fun t => c / t ^ 1)).
  - intros z. now rewrite pow_1.
  - replace (- c / x ^ 2) with (- (c * (INR 1 * x ^ pred 1)) / (x ^ 1) ^ 2).
    + now apply derivable_pt_lim_quotient.
    + simpl. field. exact Hx.
Qed.

Section Calculus.
Variables (Tc T : R).
Hypothesis Hc : 0 < Tc.
Hypothesis HT : 0 < T.

Let Tr_pos : 0 < T / Tc.
Proof. now apply Rdiv_lt_0_compat. Qed.

Lemma derivable_pt_lim_power_ratio (p : R) :
  derivable_pt_lim (fun t => Rpower (t / Tc) p) T (p / T * Rpower (T / Tc) p).
Proof.
  pose proof (derivable_pt_lim_comp (fun t => id t / Tc) (fun x => Rpower x p) T
                (1 / Tc) (p * Rpower (T / Tc) (p - 1))
                (derivable_pt_lim_div_scal id T 1 Tc (derivable_pt_lim_id T))
                (derivable_pt_lim_power (T / Tc) p Tr_pos)) as H.
  replace (p / T * Rpower (T / Tc) p)
    with (p * Rpower (T / Tc) (p - 1) * (1 / Tc)); [exact H |].
  unfold Rminus. rewrite Rpower_plus, Rpower_Ropp, (Rpower_1 _ Tr_pos).
  field. split; lra.
Qed.

Lemma derivable_pt_lim_sqrt_ratio :
  derivable_pt_lim (fun t => sqrt (t / Tc)) T (/ 2 / T * sqrt (T / Tc)).
Proof.
  rewrite <- (Rpower_sqrt _ Tr_pos).
  apply (derivable_pt_lim_locally_ext (fun t => Rpower (t / Tc) (/ 2)) _ T 0 (T + 1)).
  - lra.
  - intros z [Hz _]. apply Rpower_sqrt. now apply Rdiv_lt_0_compat.
  - apply derivable_pt_lim_power_ratio.
Qed.

Variable a0 : R.

Lemma rk_a_derivative : derivable_pt_lim (rk_a a0 Tc) T (rk_da a0 Tc T).
Proof.
  unfold rk_da.
  apply (derivable_pt_lim_product (fct_cte a0) (fun t => Rpower (t / Tc) (- 0.5))
           T 0 (- 0.5 / T * Rpower (T / Tc) (- 0.5))).
  - apply derivable_pt_lim_const.
  - apply derivable_pt_lim_power_ratio.
  - unfold fct_cte. field. lra.
Qed.

Lemma rk_da_derivative : derivable_pt_lim (rk_da a0 Tc) T (rk_d2a a0 Tc T).
Proof.
  unfold rk_d2a.
  apply (derivable_pt_lim_product (fun t => - 0.5 * a0 / t)
           (fun t => Rpower (t / Tc) (- 0.5))
           T (- (- 0.5 * a0) / T ^ 2) (- 0.5 / T * Rpower (T / Tc) (- 0.5))).
  - apply derivable_pt_lim_reciprocal. lra.
  - apply derivable_pt_lim_power_ratio.
  - decimals. field. lra.
Qed.

End Calculus.

Section SoaveCalculus.
Variables (a0 kappa Tc T : R).
Hypothesis Hc : 0 < Tc.
Hypothesis HT : 0 < T.

Lemma soave_alpha0_derivative :
  derivable_pt_lim (soave_alpha0 kappa Tc) T (- kappa * (/ 2 / T * sqrt (T / Tc))).
Proof.
  pose proof (derivable_pt_lim_plus (fct_cte 1) _ T 0 _
                (derivable_pt_lim_const 1 T)
                (derivable_pt_lim_scal _ kappa T _
                   (derivable_pt_lim_minus (fct_cte 1) _ T 0 _
                      (derivable_pt_lim_const 1 T)
                      (derivable_pt_lim_sqrt_ratio Tc T Hc HT)))) as H.
  replace (- kappa * (/ 2 / T * sqrt (T / Tc)))
    with (0 + kappa * (0 - / 2 / T * sqrt (T / Tc))) by ring.
  exact H.
Qed.

Lemma soave_a_derivative :
  derivable_pt_lim (soave_a a0 kappa Tc) T (soave_da a0 kappa Tc T).
Proof.
  apply (derivable_pt_lim_ext
           (fun t => soave_alpha0 kappa Tc t * soave_alpha0 kappa Tc t * a0)).
  { intros z. unfold soave_a. ring. }
  pose proof soave_alpha0_derivative as Ha.
  apply (derivable_pt_lim_product
           (fun t => soave_alpha0 kappa Tc t * soave_alpha0 kappa Tc t) (fct_cte a0)
           T (- kappa * (/ 2 / T * sqrt (T / Tc)) * soave_alpha0 kappa Tc T
              + soave_alpha0 kappa Tc T * (- kappa * (/ 2 / T * sqrt (T / Tc)))) 0).
  - exact (derivable_pt_lim_product _ _ T _ _ _ Ha Ha eq_refl).
  - apply derivable_pt_lim_const.
  - unfold soave_da, fct_cte. field. lra.
Qed.

Lemma soave_da_derivative :
  derivable_pt_lim (soave_da a0 kappa Tc) T (soave_d2a a0 kappa Tc T).
Proof.
  pose proof soave_alpha0_derivative as Ha.
  pose proof (derivable_pt_lim_sqrt_ratio Tc T Hc HT) as Hs.
  assert (Hq : derivable_pt_lim (fun t => - (a0 * kappa / t)) T (- (- (a0 * kappa) / T ^ 2))).
  { apply (derivable_pt_lim_opp (fun t => a0 * kappa / t)).
    apply derivable_pt_lim_reciprocal. lra. }
  assert (Hsq : sqrt (T / Tc) * sqrt (T / Tc) = T / Tc).
  { apply sqrt_sqrt. apply Rlt_le. now apply Rdiv_lt_0_compat. }
  apply (derivable_pt_lim_product
           (fun t => - (a0 * kappa / t) * sqrt (t / Tc)) (soave_alpha0 kappa Tc)
           T (- (- (a0 * kappa) / T ^ 2) * sqrt (T / Tc)
              + - (a0 * kappa / T) * (/ 2 / T * sqrt (T / Tc)))
           (- kappa * (/ 2 / T * sqrt (T / Tc)))).
  - exact (derivable_pt_lim_product _ _ T _ _ _ Hq Hs eq_refl).
  - exact Ha.
  - unfold soave_d2a, soave_alpha0. set (s := sqrt (T / Tc)) in *.
    rewrite <- Hsq. decimals. field. lra.
Qed.

End SoaveCalculus.

(** C2. For a fluid with positive critical pressure and temperature and a
    positive temperature [T], with [Tr = T/T_crit] and
    [a0 = 0.42748·R²·T_crit²/p_crit], the Redlich-Kwong instance built from
    the fluid returns [a0·Tr^(−0.5)] from [get_a], [−0.5·a0/T·Tr^(−0.5)] from
    [get_diff_a_T] and [0.75·a0/T²·Tr^(−0.5)] from [get_double_diff_a_T]. *)
Theorem C2_redlich_kwong_formulas {P : CubicEOS} (fluid : Fluid.t) (T : R)
    (eos : RedlichKwong.t) :
  0 < Fluid.p_crit fluid -> 0 < Fluid.T_crit fluid -> 0 < T ->
  RedlichKwong.__init__ fluid = Ok eos ->
  let Tr := T / Fluid.T_crit fluid in
  let a0 := 0.42748 * gas_R ^ 2 * Fluid.T_crit fluid ^ 2 / Fluid.p_crit fluid in
  RedlichKwong.get_a eos T = Ok (a0 * Rpower Tr (- 0.5)) /\
  RedlichKwong.get_diff_a_T eos T = Ok (- 0.5 * a0 / T * Rpower Tr (- 0.5)) /\
  RedlichKwong.get_double_diff_a_T eos T = Ok (0.75 * a0 / T ^ 2 * Rpower Tr (- 0.5)).
Proof.
  intros Hp Hc HT Hb Tr a0.
  apply RedlichKwong_init_inv in Hb as (_ & Ec & Ea).
  assert (Hc' : 0 < RedlichKwong.T_crit eos) by (rewrite Ec; exact Hc).
  rewrite RedlichKwong_get_a_pos, RedlichKwong_get_diff_a_T_pos,
    RedlichKwong_get_double_diff_a_T_pos by assumption.
  unfold rk_a, rk_da, rk_d2a. rewrite Ec, Ea. auto.
Qed.

Lemma C2_witness :
  0 < Fluid.p_crit methane /\ 0 < Fluid.T_crit methane /\ 0 < 250 /\
  RedlichKwong.__init__ methane = Ok methane_rk /\
  let Tr := 250 / 190.6 in
  let a0 := 0.42748 * 8.314 ^ 2 * 190.6 ^ 2 / 4600000 in
  RedlichKwong.get_a methane_rk 250 = Ok (a0 * Rpower Tr (- 0.5)) /\
  RedlichKwong.get_diff_a_T methane_rk 250 = Ok (- 0.5 * a0 / 250 * Rpower Tr (- 0.5)) /\
  RedlichKwong.get_double_diff_a_T methane_rk 250 =
    Ok (0.75 * a0 / 250 ^ 2 * Rpower Tr (- 0.5)).
Proof.
  assert (Hp : 0 < Fluid.p_crit methane) by (simpl; lra).
  assert (Hc : 0 < Fluid.T_crit methane) by (simpl; lra).
  assert (HT : 0 < 250) by lra.
  repeat split; try assumption; try exact methane_rk_built;
    apply (@C2_redlich_kwong_formulas keeping_parent methane 250 methane_rk
             Hp Hc HT methane_rk_built).
Defined.

(** ** The derivative methods are the derivatives *)

Lemma derivative_on_positive_intro (f f' : R -> result R) (F F' : R -> R) :
  (forall T, 0 < T -> f T = Ok (F T)) ->
  (forall T, 0 < T -> f' T = Ok (F' T)) ->
  (forall T, 0 < T -> derivable_pt_lim F T (F' T)) ->
  derivative_on_positive f f'.
Proof.
  intros Hf Hf' HF T HT. exists (F T), (F' T).
  split; [now apply Hf |]. split; [now apply Hf' |].
  apply (derivable_pt_lim_locally_ext F _ T 0 (T + 1)).
  - lra.
  - intros z [Hz _]. now rewrite Hf.
  - now apply HF.
Qed.

(** C3. For each of the three families and every fluid with positive
    critical pressure and temperature, [get_diff_a_T] is, at every [T > 0],
    the derivative over the reals of [get_a], and [get_double_diff_a_T] is
    the derivative of [get_diff_a_T], hence the second derivative of
    [get_a]. *)
Theorem C3_exact_derivatives {P : CubicEOS} (fluid : Fluid.t) :
  0 < Fluid.p_crit fluid -> 0 < Fluid.T_crit fluid ->
  (forall eos, RedlichKwong.__init__ fluid = Ok eos ->
     derivative_on_positive (RedlichKwong.get_a eos) (RedlichKwong.get_diff_a_T eos) /\
     derivative_on_positive (RedlichKwong.get_diff_a_T eos)
       (RedlichKwong.get_double_diff_a_T eos)) /\
  (forall eos, SoaveRedlichKwong.__init__ fluid = Ok eos ->
     derivative_on_positive (SoaveRedlichKwong.get_a eos)
       (SoaveRedlichKwong.get_diff_a_T eos) /\
     derivative_on_positive (SoaveRedlichKwong.get_diff_a_T eos)
       (SoaveRedlichKwong.get_double_diff_a_T eos)) /\
  (forall eos, PengRobinson.__init__ fluid = Ok eos ->
     derivative_on_positive (PengRobinson.get_a eos) (PengRobinson.get_diff_a_T eos) /\
     derivative_on_positive (PengRobinson.get_diff_a_T eos)
       (PengRobinson.get_double_diff_a_T eos)).
Proof.
  intros Hp Hc.
  split; [| split]; intros eos H; split.
  all: try (apply RedlichKwong_init_inv in H as (_ & Ec & _));
       try (apply SoaveRedlichKwong_init_inv in H as (_ & Ec & _));
       try (apply PengRobinson_init_inv in H as (_ & Ec & _));
       rewrite <- Ec in Hc.
  - eapply derivative_on_positive_intro; intros T HT.
    + now apply RedlichKwong_get_a_pos.
    + now apply RedlichKwong_get_diff_a_T_pos.
    + now apply rk_a_derivative.
  - eapply derivative_on_positive_intro; intros T HT.
    + now apply RedlichKwong_get_diff_a_T_pos.
    + now apply RedlichKwong_get_double_diff_a_T_pos.
    + now apply rk_da_derivative.
  - eapply derivative_on_positive_intro; intros T HT.
    + now apply SoaveRedlichKwong_get_a_pos.
    + now apply SoaveRedlichKwong_get_diff_a_T_pos.
    + now apply soave_a_derivative.
  - eapply derivative_on_positive_intro; intros T HT.
    + now apply SoaveRedlichKwong_get_diff_a_T_pos.
    + now apply SoaveRedlichKwong_get_double_diff_a_T_pos.
    + now apply soave_da_derivative.
  - eapply derivative_on_positive_intro; intros T HT.
    + now apply PengRobinson_get_a_pos.
    + now apply PengRobinson_get_diff_a_T_pos.
    + now apply soave_a_derivative.
  - eapply derivative_on_positive_intro; intros T HT.
    + now apply PengRobinson_get_diff_a_T_pos.
    + now apply PengRobinson_get_double_diff_a_T_pos.
    + now apply soave_da_derivative.
Qed.

Lemma C3_witness :
  0 < Fluid.p_crit methane /\ 0 < Fluid.T_crit methane /\
  RedlichKwong.__init__ methane = Ok methane_rk /\
  SoaveRedlichKwong.__init__ methane = Ok methane_srk /\
  PengRobinson.__init__ methane = Ok methane_pr /\
  (derivative_on_positive (RedlichKwong.get_a methane_rk)
     (RedlichKwong.get_diff_a_T methane_rk) /\
   derivative_on_positive (RedlichKwong.get_diff_a_T methane_rk)
     (RedlichKwong.get_double_diff_a_T methane_rk)) /\
  (derivative_on_positive (SoaveRedlichKwong.get_a methane_srk)
     (SoaveRedlichKwong.get_diff_a_T methane_srk) /\
   derivative_on_positive (SoaveRedlichKwong.get_diff_a_T methane_srk)
     (SoaveRedlichKwong.get_double_diff_a_T methane_srk)) /\
  (derivative_on_positive (PengRobinson.get_a methane_pr)
     (PengRobinson.get_diff_a_T methane_pr) /\
   derivative_on_positive (PengRobinson.get_diff_a_T methane_pr)
     (PengRobinson.get_double_diff_a_T methane_pr)).
Proof.
  assert (Hp : 0 < Fluid.p_crit methane) by (simpl; lra).
  assert (Hc : 0 < Fluid.T_crit methane) by (simpl; lra).
  destruct (@C3_exact_derivatives keeping_parent methane Hp Hc) as (Hrk & Hsrk & Hpr).
  split; [exact Hp |]. split; [exact Hc |].
  split; [exact methane_rk_built |].
  split; [exact methane_srk_built |].
  split; [exact methane_pr_built |].
  split; [exact (Hrk _ methane_rk_built) |].
  split; [exact (Hsrk _ methane_srk_built) | exact (Hpr _ methane_pr_built)].
Defined.

(** ** What the constructors hand to the parent *)

Lemma init_no_pressure {P : CubicEOS} (fluid : Fluid.t) :
  Fluid.p_crit fluid = 0 ->
  RedlichKwong.__init__ fluid = Raise ZeroDivisionError /\
  SoaveRedlichKwong.__init__ fluid = Raise ZeroDivisionError /\
  PengRobinson.__init__ fluid = Raise ZeroDivisionError.
Proof.
  intros E.
  unfold RedlichKwong.__init__, SoaveRedlichKwong.__init__, PengRobinson.__init__.
  rewrite E, !py_div_zero. auto.
Qed.

(** C4. For every fluid whose critical pressure is not zero, so that the
    [b] of the table has a value, and whatever the parent constructor does,
    [RedlichKwong] and [SoaveRedlichKwong] call it with
    [b = 0.08664·R·T_crit/p_crit], [δ1 = b] and [δ2 = 0], and [PengRobinson]
    calls it with [b = 0.07780·R·T_crit/p_crit], [δ1 = 2·b] and [δ2 = −b²]
    (the second argument is [0] and the last is the fluid); the instance is
    then made of the attributes computed before the call and of what the
    parent established. *)
Theorem C4_parent_arguments {P : CubicEOS} (fluid : Fluid.t) :
  Fluid.p_crit fluid <> 0 ->
  let p_crit := Fluid.p_crit fluid in
  let T_crit := Fluid.T_crit fluid in
  let omega := Fluid.acentric fluid in
  (let b := 0.08664 * gas_R * T_crit / p_crit in
   let delta1 := b in
   let delta2 := 0 in
   RedlichKwong.__init__ fluid =
     (s <- CubicEOS_init b 0 delta1 delta2 fluid ;;
      Ok (RedlichKwong.mk p_crit T_crit
            (0.42748 * gas_R ^ 2 * T_crit ^ 2 / p_crit) s)) /\
   SoaveRedlichKwong.__init__ fluid =
     (s <- CubicEOS_init b 0 delta1 delta2 fluid ;;
      Ok (SoaveRedlichKwong.mk omega p_crit T_crit
            (0.42748 * gas_R ^ 2 * T_crit ^ 2 / p_crit)
            (0.48508 + 1.55171 * omega - 0.15613 * omega ^ 2) s))) /\
  (let b := 0.07780 * gas_R * T_crit / p_crit in
   let delta1 := 2 * b in
   let delta2 := - b ^ 2 in
   PengRobinson.__init__ fluid =
     (s <- CubicEOS_init b 0 delta1 delta2 fluid ;;
      Ok (PengRobinson.mk omega p_crit T_crit
            (0.45724 * gas_R ^ 2 * T_crit ^ 2 / p_crit)
            (0.37464 + 1.54226 * omega - 0.26992 * omega ^ 2) s))).
Proof.
  intros Hp p_crit T_crit omega. repeat split.
  - now apply RedlichKwong_init_run.
  - now apply SoaveRedlichKwong_init_run.
  - now apply PengRobinson_init_run.
Qed.

Lemma C4_witness :
  Fluid.p_crit methane <> 0 /\
  b1 (RedlichKwong.super methane_rk) = 0.08664 * 8.314 * 190.6 / 4600000 /\
  RedlichKwong.__init__ methane = Ok methane_rk /\
  SoaveRedlichKwong.__init__ methane = Ok methane_srk /\
  PengRobinson.__init__ methane = Ok methane_pr.
Proof.
  destruct (@C4_parent_arguments keeping_parent methane methane_p_crit)
    as ((Hrk & Hsrk) & Hpr).
  split; [exact methane_p_crit |]. split; [reflexivity |].
  split; [exact Hrk |]. split; [exact Hsrk | exact Hpr].
Defined.

(** ** The sign of the attraction coefficient *)

Lemma a0_positive (c r Tc pc : R) :
  0 < c -> r <> 0 -> 0 < Tc -> 0 < pc -> 0 < c * r ^ 2 * Tc ^ 2 / pc.
Proof.
  intros Hcst Hr Hc Hp. apply Rdiv_lt_0_compat; [| exact Hp].
  assert (0 < r ^ 2) by (apply Rdichotomy in Hr; nra).
  assert (0 < Tc ^ 2) by nra.
  apply Rmult_lt_0_compat; [apply Rmult_lt_0_compat |]; assumption.
Qed.

Lemma rk_a_positive (a0 Tc T : R) : 0 < a0 -> 0 < rk_a a0 Tc T.
Proof.
  intros Ha. unfold rk_a, Rpower. apply Rmult_lt_0_compat; [exact Ha | apply exp_pos].
Qed.

Lemma soave_a_nonneg (a0 kappa Tc T : R) : 0 < a0 -> 0 <= soave_a a0 kappa Tc T.
Proof.
  intros Ha. unfold soave_a. pose proof (pow2_ge_0 (soave_alpha0 kappa Tc T)). nra.
Qed.

Lemma soave_a_zero (a0 kappa Tc T : R) :
  0 < a0 -> (soave_a a0 kappa Tc T = 0 <-> soave_alpha0 kappa Tc T = 0).
Proof.
  intros Ha. unfold soave_a. split.
  - intros H. apply Rmult_integral in H as [H | H]; [| lra].
    simpl in H. rewrite Rmult_1_r in H. now apply Rsqr_eq_0 in H.
  - intros ->. ring.
Qed.

Lemma soave_zero_temperature_pos (kappa Tc : R) :
  0 < kappa -> 0 < Tc -> 0 < soave_zero_temperature kappa Tc.
Proof.
  intros Hk Hc. unfold soave_zero_temperature.
  pose proof (Rinv_0_lt_compat _ Hk).
  apply Rmult_lt_0_compat; [exact Hc | apply pow_lt; lra].
Qed.

Lemma soave_alpha0_vanishes (kappa Tc : R) :
  0 < kappa -> 0 < Tc ->
  soave_alpha0 kappa Tc (soave_zero_temperature kappa Tc) = 0.
Proof.
  intros Hk Hc. unfold soave_alpha0, soave_zero_temperature.
  pose proof (Rinv_0_lt_compat _ Hk).
  replace (Tc * (1 + / kappa) ^ 2 / Tc) with ((1 + / kappa) ^ 2) by (field; lra).
  rewrite sqrt_pow2 by lra. field. lra.
Qed.

Lemma soave_alpha0_zero_at (kappa Tc T c : R) :
  0 <= c -> T / Tc = c * c -> 1 + kappa * (1 - c) = 0 ->
  soave_alpha0 kappa Tc T = 0.
Proof.
  intros Hc Hsq Hz. unfold soave_alpha0. now rewrite Hsq, sqrt_square.
Defined.

Lemma srk_vanishing_built :
  SoaveRedlichKwong.__init__ srk_vanishing = Ok srk_vanishing_eos.
Proof.
  assert (Hp : Fluid.p_crit srk_vanishing <> 0) by (simpl; lra).
  rewrite (SoaveRedlichKwong_init_run srk_vanishing Hp). reflexivity.
Defined.

Lemma pr_vanishing_built : PengRobinson.__init__ pr_vanishing = Ok pr_vanishing_eos.
Proof.
  assert (Hp : Fluid.p_crit pr_vanishing <> 0) by (simpl; lra).
  rewrite (PengRobinson_init_run pr_vanishing Hp). reflexivity.
Defined.

Lemma srk_vanishing_factor :
  1 + SoaveRedlichKwong.kappa srk_vanishing_eos
      * (1 - sqrt (srk_vanishing_T / Fluid.T_crit srk_vanishing)) = 0.
Proof.
  apply (soave_alpha0_zero_at _ _ _ (37127 / 12127)).
  - lra.
  - unfold srk_vanishing_T. simpl. lra.
  - simpl. lra.
Defined.

Lemma pr_vanishing_factor :
  1 + PengRobinson.kappa pr_vanishing_eos
      * (1 - sqrt (pr_vanishing_T / Fluid.T_crit pr_vanishing)) = 0.
Proof.
  apply (soave_alpha0_zero_at _ _ _ (7255391 / 2255391)).
  - lra.
  - unfold pr_vanishing_T. simpl. lra.
  - simpl. lra.
Defined.

(** C5, as the claim has it, fails for Soave-Redlich-Kwong: for the fluid
    with acentric factor 0 and [T_crit = 147064129], at [T = 1378414129] the
    reduced temperature is [(37127/12127)²], its root is [1 + 1/κ], the
    factor [α0] is zero and [get_a] returns [0], which is not strictly
    positive. *)
Lemma C5_counterexample :
  0 < Fluid.p_crit srk_vanishing /\ 0 < Fluid.T_crit srk_vanishing /\
  0 < srk_vanishing_T /\
  SoaveRedlichKwong.__init__ srk_vanishing = Ok srk_vanishing_eos /\
  SoaveRedlichKwong.get_a srk_vanishing_eos srk_vanishing_T = Ok 0 /\
  ~ (exists a, SoaveRedlichKwong.get_a srk_vanishing_eos srk_vanishing_T = Ok a /\ 0 < a).
Proof.
  assert (Hc : 0 < SoaveRedlichKwong.T_crit srk_vanishing_eos) by (simpl; lra).
  assert (HT : 0 < srk_vanishing_T) by (unfold srk_vanishing_T; lra).
  assert (Hz : SoaveRedlichKwong.get_a srk_vanishing_eos srk_vanishing_T = Ok 0).
  { rewrite SoaveRedlichKwong_get_a_pos by assumption.
    f_equal. unfold soave_a.
    replace (soave_alpha0 _ _ _) with 0; [ring |].
    symmetry. exact srk_vanishing_factor. }
  split; [simpl; lra |]. split; [simpl; lra |]. split; [exact HT |].
  split; [exact srk_vanishing_built |]. split; [exact Hz |].
  intros (a & Ha & Hpos). rewrite Hz in Ha. injection Ha as <-. lra.
Qed.

(** C5 (amended). With a gas constant that is not zero, for every fluid with
    positive critical pressure and temperature and every [T > 0]: [get_a] of
    Redlich-Kwong is strictly positive; [get_a] of Soave-Redlich-Kwong and
    of Peng-Robinson is strictly positive wherever the factor
    [1 + κ·(1 − √(T/T_crit))] is not zero, and is zero where that factor is
    zero. *)
Theorem C5_get_a_positive {P : CubicEOS} (fluid : Fluid.t) (T : R) :
  gas_R <> 0 ->
  0 < Fluid.p_crit fluid -> 0 < Fluid.T_crit fluid -> 0 < T ->
  (forall eos, RedlichKwong.__init__ fluid = Ok eos ->
     exists a, RedlichKwong.get_a eos T = Ok a /\ 0 < a) /\
  (forall eos, SoaveRedlichKwong.__init__ fluid = Ok eos ->
     let alpha0 :=
       1 + SoaveRedlichKwong.kappa eos * (1 - sqrt (T / Fluid.T_crit fluid)) in
     exists a, SoaveRedlichKwong.get_a eos T = Ok a /\
       (alpha0 <> 0 -> 0 < a) /\ (alpha0 = 0 -> a = 0)) /\
  (forall eos, PengRobinson.__init__ fluid = Ok eos ->
     let alpha0 :=
       1 + PengRobinson.kappa eos * (1 - sqrt (T / Fluid.T_crit fluid)) in
     exists a, PengRobinson.get_a eos T = Ok a /\
       (alpha0 <> 0 -> 0 < a) /\ (alpha0 = 0 -> a = 0)).
Proof.
  intros Hr Hp Hc HT.
  split; [intros eos H | split; intros eos H alpha0].
  - apply RedlichKwong_init_inv in H as (_ & Ec & Ea).
    eexists. split; [apply RedlichKwong_get_a_pos; rewrite ?Ec; assumption |].
    apply rk_a_positive. rewrite Ea. apply a0_positive; (assumption || lra).
  - apply SoaveRedlichKwong_init_inv in H as (_ & Ec & Ea & _).
    assert (Ha : 0 < SoaveRedlichKwong.a0 eos)
      by (rewrite Ea; apply a0_positive; (assumption || lra)).
    rewrite SoaveRedlichKwong_get_a_pos by (rewrite ?Ec; assumption). rewrite Ec.
    pose proof (soave_a_nonneg _ (SoaveRedlichKwong.kappa eos)
                  (Fluid.T_crit fluid) T Ha) as Hge.
    pose proof (soave_a_zero _ (SoaveRedlichKwong.kappa eos)
                  (Fluid.T_crit fluid) T Ha) as Hz.
    unfold soave_alpha0 in Hz. fold alpha0 in Hz.
    eexists. split; [reflexivity |]. split.
    + intros Hn. destruct Hge as [Hgt | Heq]; [exact Hgt |].
      symmetry in Heq. apply Hz in Heq. contradiction.
    + intros H0. now apply Hz.
  - apply PengRobinson_init_inv in H as (_ & Ec & Ea & _).
    assert (Ha : 0 < PengRobinson.a0 eos)
      by (rewrite Ea; apply a0_positive; (assumption || lra)).
    rewrite PengRobinson_get_a_pos by (rewrite ?Ec; assumption). rewrite Ec.
    pose proof (soave_a_nonneg _ (PengRobinson.kappa eos)
                  (Fluid.T_crit fluid) T Ha) as Hge.
    pose proof (soave_a_zero _ (PengRobinson.kappa eos)
                  (Fluid.T_crit fluid) T Ha) as Hz.
    unfold soave_alpha0 in Hz. fold alpha0 in Hz.
    eexists. split; [reflexivity |]. split.
    + intros Hn. destruct Hge as [Hgt | Heq]; [exact Hgt |].
      symmetry in Heq. apply Hz in Heq. contradiction.
    + intros H0. now apply Hz.
Qed.

Lemma sqrt_below_two (x : R) : 0 <= x < 4 -> 0 <= sqrt x < 2.
Proof.
  intros [H0 H4]. split; [apply sqrt_pos |].
  replace 2 with (sqrt (2 * 2)) by (apply sqrt_square; lra).
  apply sqrt_lt_1_alt. lra.
Defined.

Lemma methane_reduced_root : 0 <= sqrt (250 / Fluid.T_crit methane) < 2.
Proof. apply sqrt_below_two. simpl. lra. Defined.

Lemma C5_witness :
  @gas_R keeping_parent <> 0 /\
  0 < Fluid.p_crit methane /\ 0 < Fluid.T_crit methane /\ 0 < 250 /\
  RedlichKwong.__init__ methane = Ok methane_rk /\
  SoaveRedlichKwong.__init__ methane = Ok methane_srk /\
  PengRobinson.__init__ methane = Ok methane_pr /\
  1 + SoaveRedlichKwong.kappa methane_srk * (1 - sqrt (250 / Fluid.T_crit methane)) <> 0 /\
  1 + PengRobinson.kappa methane_pr * (1 - sqrt (250 / Fluid.T_crit methane)) <> 0 /\
  (exists a, RedlichKwong.get_a methane_rk 250 = Ok a /\ 0 < a) /\
  (exists a, SoaveRedlichKwong.get_a methane_srk 250 = Ok a /\ 0 < a) /\
  (exists a, PengRobinson.get_a methane_pr 250 = Ok a /\ 0 < a) /\
  0 < Fluid.p_crit srk_vanishing /\ 0 < Fluid.T_crit srk_vanishing /\
  0 < srk_vanishing_T /\
  SoaveRedlichKwong.__init__ srk_vanishing = Ok srk_vanishing_eos /\
  1 + SoaveRedlichKwong.kappa srk_vanishing_eos
      * (1 - sqrt (srk_vanishing_T / Fluid.T_crit srk_vanishing)) = 0 /\
  (exists a, SoaveRedlichKwong.get_a srk_vanishing_eos srk_vanishing_T = Ok a /\ a = 0) /\
  0 < Fluid.p_crit pr_vanishing /\ 0 < Fluid.T_crit pr_vanishing /\
  0 < pr_vanishing_T /\
  PengRobinson.__init__ pr_vanishing = Ok pr_vanishing_eos /\
  1 + PengRobinson.kappa pr_vanishing_eos
      * (1 - sqrt (pr_vanishing_T / Fluid.T_crit pr_vanishing)) = 0 /\
  (exists a, PengRobinson.get_a pr_vanishing_eos pr_vanishing_T = Ok a /\ a = 0).
Proof.
  assert (Hr : @gas_R keeping_parent <> 0) by (simpl; lra).
  assert (Hp : 0 < Fluid.p_crit methane) by (simpl; lra).
  assert (Hc : 0 < Fluid.T_crit methane) by (simpl; lra).
  assert (HT : 0 < 250) by lra.
  pose proof methane_reduced_root as Hs.
  assert (Hs1 : 1 + SoaveRedlichKwong.kappa methane_srk
                    * (1 - sqrt (250 / Fluid.T_crit methane)) <> 0)
    by (cbn [SoaveRedlichKwong.kappa methane_srk]; nra).
  assert (Hs2 : 1 + PengRobinson.kappa methane_pr
                    * (1 - sqrt (250 / Fluid.T_crit methane)) <> 0)
    by (cbn [PengRobinson.kappa methane_pr]; nra).
  destruct (@C5_get_a_positive keeping_parent methane 250 Hr Hp Hc HT)
    as (Hrk & Hsrk & Hpr).
  destruct (Hsrk _ methane_srk_built) as (a1 & E1 & N1 & _).
  destruct (Hpr _ methane_pr_built) as (a2 & E2 & N2 & _).
  assert (Sp : 0 < Fluid.p_crit srk_vanishing) by (simpl; lra).
  assert (Sc : 0 < Fluid.T_crit srk_vanishing) by (simpl; lra).
  assert (ST : 0 < srk_vanishing_T) by (unfold srk_vanishing_T; lra).
  destruct (@C5_get_a_positive keeping_parent srk_vanishing srk_vanishing_T Hr Sp Sc ST)
    as (_ & Zsrk & _).
  destruct (Zsrk _ srk_vanishing_built) as (a3 & E3 & _ & Z3).
  assert (Pp : 0 < Fluid.p_crit pr_vanishing) by (simpl; lra).
  assert (Pc : 0 < Fluid.T_crit pr_vanishing) by (simpl; lra).
  assert (PT : 0 < pr_vanishing_T) by (unfold pr_vanishing_T; lra).
  destruct (@C5_get_a_positive keeping_parent pr_vanishing pr_vanishing_T Hr Pp Pc PT)
    as (_ & _ & Zpr).
  destruct (Zpr _ pr_vanishing_built) as (a4 & E4 & _ & Z4).
  split; [exact Hr |]. split; [exact Hp |]. split; [exact Hc |]. split; [exact HT |].
  split; [exact methane_rk_built |].
  split; [exact methane_srk_built |].
  split; [exact methane_pr_built |].
  split; [exact Hs1 |]. split; [exact Hs2 |].
  split; [exact (Hrk _ methane_rk_built) |].
  split; [exists a1; split; [exact E1 | exact (N1 Hs1)] |].
  split; [exists a2; split; [exact E2 | exact (N2 Hs2)] |].
  split; [exact Sp |]. split; [exact Sc |]. split; [exact ST |].
  split; [exact srk_vanishing_built |]. split; [exact srk_vanishing_factor |].
  split; [exists a3; split; [exact E3 | exact (Z3 srk_vanishing_factor)] |].
  split; [exact Pp |]. split; [exact Pc |]. split; [exact PT |].
  split; [exact pr_vanishing_built |]. split; [exact pr_vanishing_factor |].
  exists a4; split; [exact E4 | exact (Z4 pr_vanishing_factor)].
Defined.

(** ** Construction and invalid critical constants *)

(** C6, as the claim has it, fails where the critical pressure is zero:
    construction does fail, but with [ZeroDivisionError], raised by the
    division that computes [a0], not with [ConfigError]. *)
Lemma C6_counterexample :
  (Fluid.p_crit no_pressure <= 0 \/ Fluid.T_crit no_pressure <= 0) /\
  @RedlichKwong.__init__ keeping_parent no_pressure = Raise ZeroDivisionError /\
  @SoaveRedlichKwong.__init__ keeping_parent no_pressure = Raise ZeroDivisionError /\
  @PengRobinson.__init__ keeping_parent no_pressure = Raise ZeroDivisionError /\
  @RedlichKwong.__init__ keeping_parent no_pressure <> Raise ConfigError /\
  @SoaveRedlichKwong.__init__ keeping_parent no_pressure <> Raise ConfigError /\
  @PengRobinson.__init__ keeping_parent no_pressure <> Raise ConfigError.
Proof.
  destruct (@init_no_pressure keeping_parent no_pressure eq_refl) as (H1 & H2 & H3).
  rewrite H1, H2, H3.
  split; [left; simpl; lra |]. repeat split; discriminate.
Qed.

(** C6 (amended). The three constructors check nothing and raise no
    [ConfigError] of their own.  Where the critical pressure is zero they
    fail with [ZeroDivisionError].  Where it is not zero, be it negative and
    whatever the critical temperature, the outcome of a constructor is
    exactly the outcome of the parent constructor on the arguments handed to
    it: the exception of the parent when it raises, otherwise the instance
    made of the computed attributes and of what the parent established.  So
    construction succeeds for every fluid with positive critical pressure
    and temperature that the parent constructor accepts. *)
Theorem C6_construction_outcome {P : CubicEOS} (fluid : Fluid.t) :
  let p_crit := Fluid.p_crit fluid in
  let T_crit := Fluid.T_crit fluid in
  let omega := Fluid.acentric fluid in
  (p_crit = 0 ->
     RedlichKwong.__init__ fluid = Raise ZeroDivisionError /\
     SoaveRedlichKwong.__init__ fluid = Raise ZeroDivisionError /\
     PengRobinson.__init__ fluid = Raise ZeroDivisionError) /\
  (p_crit <> 0 ->
     RedlichKwong.__init__ fluid =
       match CubicEOS_init (0.08664 * gas_R * T_crit / p_crit) 0
               (0.08664 * gas_R * T_crit / p_crit) 0 fluid with
       | Ok s =>
           Ok (RedlichKwong.mk p_crit T_crit
                 (0.42748 * gas_R ^ 2 * T_crit ^ 2 / p_crit) s)
       | Raise e => Raise e
       end /\
     SoaveRedlichKwong.__init__ fluid =
       match CubicEOS_init (0.08664 * gas_R * T_crit / p_crit) 0
               (0.08664 * gas_R * T_crit / p_crit) 0 fluid with
       | Ok s =>
           Ok (SoaveRedlichKwong.mk omega p_crit T_crit
                 (0.42748 * gas_R ^ 2 * T_crit ^ 2 / p_crit)
                 (0.48508 + 1.55171 * omega - 0.15613 * omega ^ 2) s)
       | Raise e => Raise e
       end /\
     PengRobinson.__init__ fluid =
       match CubicEOS_init (0.07780 * gas_R * T_crit / p_crit) 0
               (2 * (0.07780 * gas_R * T_crit / p_crit))
               (- (0.07780 * gas_R * T_crit / p_crit) ^ 2) fluid with
       | Ok s =>
           Ok (PengRobinson.mk omega p_crit T_crit
                 (0.45724 * gas_R ^ 2 * T_crit ^ 2 / p_crit)
                 (0.37464 + 1.54226 * omega - 0.26992 * omega ^ 2) s)
       | Raise e => Raise e
       end).
Proof.
  intros p_crit T_crit omega. split.
  - apply init_no_pressure.
  - intros Hp.
    rewrite RedlichKwong_init_run, SoaveRedlichKwong_init_run,
      PengRobinson_init_run by exact Hp.
    repeat split.
Qed.

Lemma C6_witness :
  Fluid.p_crit no_pressure = 0 /\
  @RedlichKwong.__init__ keeping_parent no_pressure = Raise ZeroDivisionError /\
  @SoaveRedlichKwong.__init__ keeping_parent no_pressure = Raise ZeroDivisionError /\
  @PengRobinson.__init__ keeping_parent no_pressure = Raise ZeroDivisionError /\
  Fluid.p_crit negative_constants <> 0 /\
  (exists eos, @RedlichKwong.__init__ keeping_parent negative_constants = Ok eos) /\
  (exists eos, @SoaveRedlichKwong.__init__ keeping_parent negative_constants = Ok eos) /\
  (exists eos, @PengRobinson.__init__ keeping_parent negative_constants = Ok eos) /\
  Fluid.p_crit methane <> 0 /\
  (exists eos, @RedlichKwong.__init__ keeping_parent methane = Ok eos) /\
  (exists eos, @SoaveRedlichKwong.__init__ keeping_parent methane = Ok eos) /\
  (exists eos, @PengRobinson.__init__ keeping_parent methane = Ok eos).
Proof.
  destruct (@C6_construction_outcome keeping_parent no_pressure) as [Hz _].
  destruct (Hz eq_refl) as (Z1 & Z2 & Z3).
  assert (Hn : Fluid.p_crit negative_constants <> 0) by (simpl; lra).
  destruct (@C6_construction_outcome keeping_parent negative_constants) as [_ Hneg].
  destruct (Hneg Hn) as (N1 & N2 & N3).
  destruct (@C6_construction_outcome keeping_parent methane) as [_ Hm].
  destruct (Hm methane_p_crit) as (M1 & M2 & M3).
  split; [reflexivity |].
  split; [exact Z1 |]. split; [exact Z2 |]. split; [exact Z3 |].
  split; [exact Hn |].
  split; [eexists; exact N1 |]. split; [eexists; exact N2 |]. split; [eexists; exact N3 |].
  split; [exact methane_p_crit |].
  split; [eexists; exact M1 |]. split; [eexists; exact M2 | eexists; exact M3].
Defined.

(** ** One parameterised function for SRK and PR *)

(** The stored triple [(a0, kappa, T_crit)] fixes the three methods, in
    both classes, at every temperature. *)
Lemma soave_methods_agree {P : CubicEOS}
    (srk : SoaveRedlichKwong.t) (pr : PengRobinson.t) (T : R) :
  SoaveRedlichKwong.a0 srk = PengRobinson.a0 pr ->
  SoaveRedlichKwong.kappa srk = PengRobinson.kappa pr ->
  SoaveRedlichKwong.T_crit srk = PengRobinson.T_crit pr ->
  SoaveRedlichKwong.get_a srk T = PengRobinson.get_a pr T /\
  SoaveRedlichKwong.get_diff_a_T srk T = PengRobinson.get_diff_a_T pr T /\
  SoaveRedlichKwong.get_double_diff_a_T srk T = PengRobinson.get_double_diff_a_T pr T.
Proof.
  intros Ea Ek Ec.
  unfold SoaveRedlichKwong.get_a, SoaveRedlichKwong.get_diff_a_T,
    SoaveRedlichKwong.get_double_diff_a_T, PengRobinson.get_a,
    PengRobinson.get_diff_a_T, PengRobinson.get_double_diff_a_T.
  rewrite Ea, Ek, Ec. auto.
Qed.

(** C7. For two fluids such that the Soave-Redlich-Kwong instance built from
    the first and the Peng-Robinson instance built from the second store the
    same [(a0, kappa, T_crit)], the two instances return equal values of
    [get_a(T)], [get_diff_a_T(T)] and [get_double_diff_a_T(T)] for every
    [T > 0]; on such temperatures and a positive [T_crit] the common values
    are those of the one function of [(a0, κ, T_crit)] the design document
    writes. *)
Theorem C7_srk_pr_same_function {P : CubicEOS} (fluid1 fluid2 : Fluid.t)
    (srk : SoaveRedlichKwong.t) (pr : PengRobinson.t) (T : R) :
  SoaveRedlichKwong.__init__ fluid1 = Ok srk ->
  PengRobinson.__init__ fluid2 = Ok pr ->
  SoaveRedlichKwong.a0 srk = PengRobinson.a0 pr ->
  SoaveRedlichKwong.kappa srk = PengRobinson.kappa pr ->
  SoaveRedlichKwong.T_crit srk = PengRobinson.T_crit pr ->
  0 < T ->
  (SoaveRedlichKwong.get_a srk T = PengRobinson.get_a pr T /\
   SoaveRedlichKwong.get_diff_a_T srk T = PengRobinson.get_diff_a_T pr T /\
   SoaveRedlichKwong.get_double_diff_a_T srk T = PengRobinson.get_double_diff_a_T pr T) /\
  (0 < PengRobinson.T_crit pr ->
   let a0 := PengRobinson.a0 pr in
   let kappa := PengRobinson.kappa pr in
   let Tc := PengRobinson.T_crit pr in
   PengRobinson.get_a pr T = Ok (soave_a a0 kappa Tc T) /\
   PengRobinson.get_diff_a_T pr T = Ok (soave_da a0 kappa Tc T) /\
   PengRobinson.get_double_diff_a_T pr T = Ok (soave_d2a a0 kappa Tc T)).
Proof.
  intros _ _ Ea Ek Ec HT. split.
  - now apply soave_methods_agree.
  - intros Hc a0 kappa Tc. repeat split.
    + now apply PengRobinson_get_a_pos.
    + now apply PengRobinson_get_diff_a_T_pos.
    + now apply PengRobinson_get_double_diff_a_T_pos.
Qed.

(** ** Redlich-Kwong ignores the acentric factor *)

(** C8. For two fluids that agree on critical pressure and temperature (the
    gas constant belongs to the class), whatever their acentric factors, the
    Redlich-Kwong instances built from them return identical values of
    [get_a(T)], [get_diff_a_T(T)] and [get_double_diff_a_T(T)] for every
    [T > 0]. *)
Theorem C8_rk_ignores_acentric {P : CubicEOS} (fluid1 fluid2 : Fluid.t)
    (eos1 eos2 : RedlichKwong.t) (T : R) :
  Fluid.p_crit fluid1 = Fluid.p_crit fluid2 ->
  Fluid.T_crit fluid1 = Fluid.T_crit fluid2 ->
  RedlichKwong.__init__ fluid1 = Ok eos1 ->
  RedlichKwong.__init__ fluid2 = Ok eos2 ->
  0 < T ->
  RedlichKwong.get_a eos1 T = RedlichKwong.get_a eos2 T /\
  RedlichKwong.get_diff_a_T eos1 T = RedlichKwong.get_diff_a_T eos2 T /\
  RedlichKwong.get_double_diff_a_T eos1 T = RedlichKwong.get_double_diff_a_T eos2 T.
Proof.
  intros Ep Ec H1 H2 _.
  apply RedlichKwong_init_inv in H1 as (_ & Ec1 & Ea1).
  apply RedlichKwong_init_inv in H2 as (_ & Ec2 & Ea2).
  unfold RedlichKwong.get_a, RedlichKwong.get_diff_a_T, RedlichKwong.get_double_diff_a_T.
  rewrite Ec1, Ea1, Ec2, Ea2, Ep, Ec. auto.
Qed.

Lemma pr_kappa_of_acentric (k : R) :
  0 <= 1.54226 ^ 2 - 4 * 0.26992 * (k - 0.37464) ->
  0.37464 + 1.54226 * pr_acentric_of_kappa k - 0.26992 * pr_acentric_of_kappa k ^ 2 = k.
Proof.
  intros HD. unfold pr_acentric_of_kappa.
  pose proof (sqrt_sqrt _ HD) as Hs.
  set (s := sqrt _) in *. clearbody s.
  replace (0.37464 + 1.54226 * ((1.54226 - s) / (2 * 0.26992))
           - 0.26992 * ((1.54226 - s) / (2 * 0.26992)) ^ 2)
    with (k + (1.54226 ^ 2 - 4 * 0.26992 * (k - 0.37464) - s * s) / (4 * 0.26992))
    by (decimals; field).
  rewrite Hs. decimals. field.
Defined.

Lemma C7_witness :
  exists (srk : @SoaveRedlichKwong.t keeping_parent) (pr : @PengRobinson.t keeping_parent),
    SoaveRedlichKwong.__init__ srk_twin = Ok srk /\
    PengRobinson.__init__ pr_twin = Ok pr /\
    SoaveRedlichKwong.a0 srk = PengRobinson.a0 pr /\
    SoaveRedlichKwong.kappa srk = PengRobinson.kappa pr /\
    SoaveRedlichKwong.T_crit srk = PengRobinson.T_crit pr /\
    0 < 250 /\ 0 < PengRobinson.T_crit pr /\
    SoaveRedlichKwong.get_a srk 250 = PengRobinson.get_a pr 250 /\
    SoaveRedlichKwong.get_diff_a_T srk 250 = PengRobinson.get_diff_a_T pr 250 /\
    SoaveRedlichKwong.get_double_diff_a_T srk 250 =
      PengRobinson.get_double_diff_a_T pr 250 /\
    PengRobinson.get_a pr 250 =
      Ok (soave_a (PengRobinson.a0 pr) (PengRobinson.kappa pr) (PengRobinson.T_crit pr) 250).
Proof.
  assert (Hp1 : Fluid.p_crit srk_twin <> 0) by (simpl; lra).
  assert (Hp2 : Fluid.p_crit pr_twin <> 0) by (simpl; lra).
  pose proof (@SoaveRedlichKwong_init_run keeping_parent srk_twin Hp1) as B1.
  pose proof (@PengRobinson_init_run keeping_parent pr_twin Hp2) as B2.
  cbv zeta in B1, B2. cbn [bind CubicEOS_init keeping_parent] in B1, B2.
  match type of B1 with _ = Ok ?e => set (srk := e) in * end.
  match type of B2 with _ = Ok ?e => set (pr := e) in * end.
  assert (Ea : SoaveRedlichKwong.a0 srk = PengRobinson.a0 pr)
    by (simpl; decimals; field).
  assert (Ek : SoaveRedlichKwong.kappa srk = PengRobinson.kappa pr).
  { simpl. rewrite pr_kappa_of_acentric by lra. lra. }
  assert (Ec : SoaveRedlichKwong.T_crit srk = PengRobinson.T_crit pr) by reflexivity.
  assert (HT : 0 < 250) by lra.
  assert (Hc : 0 < PengRobinson.T_crit pr) by (simpl; lra).
  destruct (@C7_srk_pr_same_function keeping_parent srk_twin pr_twin srk pr 250
              B1 B2 Ea Ek Ec HT) as [(G1 & G2 & G3) Hform].
  destruct (Hform Hc) as (F1 & _ & _).
  exists srk, pr.
  split; [exact B1 |]. split; [exact B2 |]. split; [exact Ea |].
  split; [exact Ek |]. split; [exact Ec |]. split; [exact HT |]. split; [exact Hc |].
  split; [exact G1 |]. split; [exact G2 |]. split; [exact G3 | exact F1].
Defined.

Lemma C8_witness :
  Fluid.acentric methane <> Fluid.acentric methane_heavier /\
  exists eos2 : @RedlichKwong.t keeping_parent,
    Fluid.p_crit methane = Fluid.p_crit methane_heavier /\
    Fluid.T_crit methane = Fluid.T_crit methane_heavier /\
    RedlichKwong.__init__ methane = Ok methane_rk /\
    RedlichKwong.__init__ methane_heavier = Ok eos2 /\
    0 < 250 /\
    RedlichKwong.get_a methane_rk 250 = RedlichKwong.get_a eos2 250 /\
    RedlichKwong.get_diff_a_T methane_rk 250 = RedlichKwong.get_diff_a_T eos2 250 /\
    RedlichKwong.get_double_diff_a_T methane_rk 250 =
      RedlichKwong.get_double_diff_a_T eos2 250.
Proof.
  split; [simpl; lra |].
  assert (Hp : Fluid.p_crit methane_heavier <> 0) by (simpl; lra).
  pose proof (@RedlichKwong_init_run keeping_parent methane_heavier Hp) as B2.
  cbv zeta in B2. cbn [bind CubicEOS_init keeping_parent] in B2.
  match type of B2 with _ = Ok ?e => set (eos2 := e) in * end.
  assert (HT : 0 < 250) by lra.
  destruct (@C8_rk_ignores_acentric keeping_parent methane methane_heavier
              methane_rk eos2 250 eq_refl eq_refl methane_rk_built B2 HT)
    as (G1 & G2 & G3).
  exists eos2.
  split; [reflexivity |]. split; [reflexivity |].
  split; [exact methane_rk_built |]. split; [exact B2 |]. split; [exact HT |].
  split; [exact G1 |]. split; [exact G2 | exact G3].
Defined.

(** ** At the critical temperature *)

(** C9. For each of the three families and every fluid with positive
    critical pressure and temperature, [get_a] at the critical temperature
    returns the stored constant [a0]. *)
Theorem C9_get_a_at_critical_temperature {P : CubicEOS} (fluid : Fluid.t) :
  0 < Fluid.p_crit fluid -> 0 < Fluid.T_crit fluid ->
  (forall eos, RedlichKwong.__init__ fluid = Ok eos ->
     RedlichKwong.get_a eos (Fluid.T_crit fluid) = Ok (RedlichKwong.a0 eos)) /\
  (forall eos, SoaveRedlichKwong.__init__ fluid = Ok eos ->
     SoaveRedlichKwong.get_a eos (Fluid.T_crit fluid) = Ok (SoaveRedlichKwong.a0 eos)) /\
  (forall eos, PengRobinson.__init__ fluid = Ok eos ->
     PengRobinson.get_a eos (Fluid.T_crit fluid) = Ok (PengRobinson.a0 eos)).
Proof.
  intros Hp Hc.
  assert (E1 : Fluid.T_crit fluid / Fluid.T_crit fluid = 1) by (field; lra).
  split; [| split]; intros eos H.
  - apply RedlichKwong_init_inv in H as (_ & Ec & _).
    unfold RedlichKwong.get_a. rewrite Ec, py_div_ok, E1 by lra. cbn [bind].
    rewrite py_pow_half_ok, sqrt_1 by lra. cbn [bind].
    rewrite py_div_ok by lra. f_equal. field.
  - apply SoaveRedlichKwong_init_inv in H as (_ & Ec & _).
    unfold SoaveRedlichKwong.get_a. rewrite Ec, py_div_ok, E1 by lra. cbn [bind].
    rewrite py_pow_half_ok, sqrt_1 by lra. cbn [bind]. f_equal. ring.
  - apply PengRobinson_init_inv in H as (_ & Ec & _).
    unfold PengRobinson.get_a. rewrite Ec, py_div_ok, E1 by lra. cbn [bind].
    rewrite py_pow_half_ok, sqrt_1 by lra. cbn [bind]. f_equal. ring.
Qed.

Lemma C9_witness :
  0 < Fluid.p_crit methane /\ 0 < Fluid.T_crit methane /\
  RedlichKwong.__init__ methane = Ok methane_rk /\
  SoaveRedlichKwong.__init__ methane = Ok methane_srk /\
  PengRobinson.__init__ methane = Ok methane_pr /\
  RedlichKwong.get_a methane_rk 190.6 = Ok (0.42748 * 8.314 ^ 2 * 190.6 ^ 2 / 4600000) /\
  SoaveRedlichKwong.get_a methane_srk 190.6 =
    Ok (0.42748 * 8.314 ^ 2 * 190.6 ^ 2 / 4600000) /\
  PengRobinson.get_a methane_pr 190.6 = Ok (0.45724 * 8.314 ^ 2 * 190.6 ^ 2 / 4600000).
Proof.
  assert (Hp : 0 < Fluid.p_crit methane) by (simpl; lra).
  assert (Hc : 0 < Fluid.T_crit methane) by (simpl; lra).
  destruct (@C9_get_a_at_critical_temperature keeping_parent methane Hp Hc)
    as (Hrk & Hsrk & Hpr).
  split; [exact Hp |]. split; [exact Hc |].
  split; [exact methane_rk_built |].
  split; [exact methane_srk_built |].
  split; [exact methane_pr_built |].
  split; [exact (Hrk _ methane_rk_built) |].
  split; [exact (Hsrk _ methane_srk_built) | exact (Hpr _ methane_pr_built)].
Defined.

(** ** Where the attraction coefficient of SRK and PR vanishes *)

(** C10. With a gas constant that is not zero, for every fluid with
    positive critical pressure and temperature (any acentric factor) and
    every [T > 0], [get_a] of Soave-Redlich-Kwong and of Peng-Robinson
    returns a nonnegative number, and that number is zero exactly when
    [1 + κ·(1 − √(T/T_crit)) = 0]. *)
Theorem C10_get_a_nonnegative {P : CubicEOS} (fluid : Fluid.t) (T : R) :
  gas_R <> 0 ->
  0 < Fluid.p_crit fluid -> 0 < Fluid.T_crit fluid -> 0 < T ->
  let omega := Fluid.acentric fluid in
  let alpha0 kappa := 1 + kappa * (1 - sqrt (T / Fluid.T_crit fluid)) in
  (forall eos, SoaveRedlichKwong.__init__ fluid = Ok eos ->
     exists a, SoaveRedlichKwong.get_a eos T = Ok a /\ 0 <= a /\
       (a = 0 <-> alpha0 (0.48508 + 1.55171 * omega - 0.15613 * omega ^ 2) = 0)) /\
  (forall eos, PengRobinson.__init__ fluid = Ok eos ->
     exists a, PengRobinson.get_a eos T = Ok a /\ 0 <= a /\
       (a = 0 <-> alpha0 (0.37464 + 1.54226 * omega - 0.26992 * omega ^ 2) = 0)).
Proof.
  intros Hr Hp Hc HT omega alpha0. split; intros eos H.
  - apply SoaveRedlichKwong_init_inv in H as (_ & Ec & Ea & Ek).
    assert (Ha : 0 < SoaveRedlichKwong.a0 eos)
      by (rewrite Ea; apply a0_positive; (assumption || lra)).
    eexists. split; [apply SoaveRedlichKwong_get_a_pos; rewrite ?Ec; assumption |].
    split; [now apply soave_a_nonneg |].
    rewrite soave_a_zero by exact Ha. unfold soave_alpha0, alpha0, omega.
    rewrite Ec, Ek. reflexivity.
  - apply PengRobinson_init_inv in H as (_ & Ec & Ea & Ek).
    assert (Ha : 0 < PengRobinson.a0 eos)
      by (rewrite Ea; apply a0_positive; (assumption || lra)).
    eexists. split; [apply PengRobinson_get_a_pos; rewrite ?Ec; assumption |].
    split; [now apply soave_a_nonneg |].
    rewrite soave_a_zero by exact Ha. unfold soave_alpha0, alpha0, omega.
    rewrite Ec, Ek. reflexivity.
Qed.

Lemma C10_witness :
  @gas_R keeping_parent <> 0 /\
  0 < Fluid.p_crit methane /\ 0 < Fluid.T_crit methane /\ 0 < 250 /\
  SoaveRedlichKwong.__init__ methane = Ok methane_srk /\
  PengRobinson.__init__ methane = Ok methane_pr /\
  let alpha0 kappa := 1 + kappa * (1 - sqrt (250 / 190.6)) in
  (exists a, SoaveRedlichKwong.get_a methane_srk 250 = Ok a /\ 0 <= a /\
     (a = 0 <-> alpha0 (0.48508 + 1.55171 * 0.011 - 0.15613 * 0.011 ^ 2) = 0)) /\
  (exists a, PengRobinson.get_a methane_pr 250 = Ok a /\ 0 <= a /\
     (a = 0 <-> alpha0 (0.37464 + 1.54226 * 0.011 - 0.26992 * 0.011 ^ 2) = 0)).
Proof.
  assert (Hr : @gas_R keeping_parent <> 0) by (simpl; lra).
  assert (Hp : 0 < Fluid.p_crit methane) by (simpl; lra).
  assert (Hc : 0 < Fluid.T_crit methane) by (simpl; lra).
  assert (HT : 0 < 250) by lra.
  destruct (@C10_get_a_nonnegative keeping_parent methane 250 Hr Hp Hc HT)
    as (Hsrk & Hpr).
  split; [exact Hr |]. split; [exact Hp |]. split; [exact Hc |]. split; [exact HT |].
  split; [exact methane_srk_built |].
  split; [exact methane_pr_built |].
  split; [exact (Hsrk _ methane_srk_built) | exact (Hpr _ methane_pr_built)].
Defined.

(** * Further properties of the methods *)

(** ** What a constructor establishes *)

(** With a gas constant that is not zero, an instance built from a fluid
    with positive critical pressure and temperature stores the critical
    temperature of the fluid and a strictly positive [a0], in the three
    classes. *)
Theorem init_establishes_positive_a0 {P : CubicEOS} (fluid : Fluid.t) :
  gas_R <> 0 -> 0 < Fluid.p_crit fluid -> 0 < Fluid.T_crit fluid ->
  (forall eos, RedlichKwong.__init__ fluid = Ok eos ->
     RedlichKwong.T_crit eos = Fluid.T_crit fluid /\ 0 < RedlichKwong.a0 eos) /\
  (forall eos, SoaveRedlichKwong.__init__ fluid = Ok eos ->
     SoaveRedlichKwong.T_crit eos = Fluid.T_crit fluid /\
     0 < SoaveRedlichKwong.a0 eos) /\
  (forall eos, PengRobinson.__init__ fluid = Ok eos ->
     PengRobinson.T_crit eos = Fluid.T_crit fluid /\ 0 < PengRobinson.a0 eos).
Proof.
  intros Hr Hp Hc. split; [| split]; intros eos H.
  - apply RedlichKwong_init_inv in H as (_ & Ec & Ea).
    split; [exact Ec |]. rewrite Ea. apply a0_positive; (assumption || lra).
  - apply SoaveRedlichKwong_init_inv in H as (_ & Ec & Ea & _).
    split; [exact Ec |]. rewrite Ea. apply a0_positive; (assumption || lra).
  - apply PengRobinson_init_inv in H as (_ & Ec & Ea & _).
    split; [exact Ec |]. rewrite Ea. apply a0_positive; (assumption || lra).
Qed.

Lemma init_establishes_positive_a0_witness :
  @gas_R keeping_parent <> 0 /\
  0 < Fluid.p_crit methane /\ 0 < Fluid.T_crit methane /\
  RedlichKwong.__init__ methane = Ok methane_rk /\
  SoaveRedlichKwong.__init__ methane = Ok methane_srk /\
  PengRobinson.__init__ methane = Ok methane_pr /\
  0 < RedlichKwong.a0 methane_rk /\
  0 < SoaveRedlichKwong.a0 methane_srk /\
  0 < PengRobinson.a0 methane_pr.
Proof.
  assert (Hr : @gas_R keeping_parent <> 0) by (simpl; lra).
  assert (Hp : 0 < Fluid.p_crit methane) by (simpl; lra).
  assert (Hc : 0 < Fluid.T_crit methane) by (simpl; lra).
  destruct (@init_establishes_positive_a0 keeping_parent methane Hr Hp Hc)
    as (Hrk & Hsrk & Hpr).
  split; [exact Hr |]. split; [exact Hp |]. split; [exact Hc |].
  split; [exact methane_rk_built |].
  split; [exact methane_srk_built |].
  split; [exact methane_pr_built |].
  split; [exact (proj2 (Hrk _ methane_rk_built)) |].
  split; [exact (proj2 (Hsrk _ methane_srk_built))
         | exact (proj2 (Hpr _ methane_pr_built))].
Defined.

(** For an acentric factor between 0 and 1 the stored [kappa] lies between
    its values at 0 and at 1, in both classes, and it grows strictly with
    the acentric factor on that range. *)
Theorem kappa_of_acentric_range {P : CubicEOS} (fluid1 fluid2 : Fluid.t) :
  0 <= Fluid.acentric fluid1 -> Fluid.acentric fluid1 < Fluid.acentric fluid2 ->
  Fluid.acentric fluid2 <= 1 ->
  (forall eos1 eos2,
     SoaveRedlichKwong.__init__ fluid1 = Ok eos1 ->
     SoaveRedlichKwong.__init__ fluid2 = Ok eos2 ->
     0.48508 <= SoaveRedlichKwong.kappa eos1 /\
     SoaveRedlichKwong.kappa eos1 < SoaveRedlichKwong.kappa eos2 /\
     SoaveRedlichKwong.kappa eos2 <= 1.88066) /\
  (forall eos1 eos2,
     PengRobinson.__init__ fluid1 = Ok eos1 ->
     PengRobinson.__init__ fluid2 = Ok eos2 ->
     0.37464 <= PengRobinson.kappa eos1 /\
     PengRobinson.kappa eos1 < PengRobinson.kappa eos2 /\
     PengRobinson.kappa eos2 <= 1.64698).
Proof.
  intros H0 Hlt H1. split; intros eos1 eos2 B1 B2.
  - apply SoaveRedlichKwong_init_inv in B1 as (_ & _ & _ & ->).
    apply SoaveRedlichKwong_init_inv in B2 as (_ & _ & _ & ->).
    repeat split; nra.
  - apply PengRobinson_init_inv in B1 as (_ & _ & _ & ->).
    apply PengRobinson_init_inv in B2 as (_ & _ & _ & ->).
    repeat split; nra.
Qed.

(** With the parent of the examples every fluid whose critical pressure is
    not zero is built, in the three classes. *)
Lemma keeping_parent_builds (fluid : Fluid.t) :
  Fluid.p_crit fluid <> 0 ->
  (exists eos, @RedlichKwong.__init__ keeping_parent fluid = Ok eos) /\
  (exists eos, @SoaveRedlichKwong.__init__ keeping_parent fluid = Ok eos) /\
  (exists eos, @PengRobinson.__init__ keeping_parent fluid = Ok eos).
Proof.
  intros Hp.
  pose proof (@RedlichKwong_init_run keeping_parent fluid Hp) as B1.
  pose proof (@SoaveRedlichKwong_init_run keeping_parent fluid Hp) as B2.
  pose proof (@PengRobinson_init_run keeping_parent fluid Hp) as B3.
  cbv zeta in B1, B2, B3. cbn [bind CubicEOS_init keeping_parent] in B1, B2, B3.
  split; [eexists; exact B1 |]. split; [eexists; exact B2 | eexists; exact B3].
Defined.

Lemma kappa_of_acentric_range_witness :
  0 <= Fluid.acentric methane /\
  Fluid.acentric methane < Fluid.acentric methane_heavier /\
  Fluid.acentric methane_heavier <= 1 /\
  (exists eos2 : @SoaveRedlichKwong.t keeping_parent,
     SoaveRedlichKwong.__init__ methane = Ok methane_srk /\
     SoaveRedlichKwong.__init__ methane_heavier = Ok eos2 /\
     0.48508 <= SoaveRedlichKwong.kappa methane_srk /\
     SoaveRedlichKwong.kappa methane_srk < SoaveRedlichKwong.kappa eos2 /\
     SoaveRedlichKwong.kappa eos2 <= 1.88066) /\
  (exists eos2 : @PengRobinson.t keeping_parent,
     PengRobinson.__init__ methane = Ok methane_pr /\
     PengRobinson.__init__ methane_heavier = Ok eos2 /\
     0.37464 <= PengRobinson.kappa methane_pr /\
     PengRobinson.kappa methane_pr < PengRobinson.kappa eos2 /\
     PengRobinson.kappa eos2 <= 1.64698).
Proof.
  assert (H0 : 0 <= Fluid.acentric methane) by (simpl; lra).
  assert (Hlt : Fluid.acentric methane < Fluid.acentric methane_heavier)
    by (simpl; lra).
  assert (H1 : Fluid.acentric methane_heavier <= 1) by (simpl; lra).
  assert (Hp : Fluid.p_crit methane_heavier <> 0) by (simpl; lra).
  destruct (keeping_parent_builds methane_heavier Hp) as (_ & [srk2 S2] & [pr2 P2]).
  destruct (@kappa_of_acentric_range keeping_parent methane methane_heavier H0 Hlt H1)
    as [Hsrk Hpr].
  split; [exact H0 |]. split; [exact Hlt |]. split; [exact H1 |]. split.
  - exists srk2. split; [exact methane_srk_built |]. split; [exact S2 |].
    exact (Hsrk _ _ methane_srk_built S2).
  - exists pr2. split; [exact methane_pr_built |]. split; [exact P2 |].
    exact (Hpr _ _ methane_pr_built P2).
Defined.

(** ** Redlich-Kwong: a decreasing, convex coefficient *)

Lemma ratio_positive (T Tc : R) : 0 < Tc -> 0 < T -> 0 < T / Tc.
Proof. intros Hc HT. now apply Rdiv_lt_0_compat. Qed.

(** For an instance with positive [T_crit] and [a0], at every [T > 0] the
    first derivative that Redlich-Kwong returns is strictly negative and the
    second strictly positive. *)
Theorem RedlichKwong_derivative_signs {P : CubicEOS} (self : RedlichKwong.t) (T : R) :
  0 < RedlichKwong.T_crit self -> 0 < RedlichKwong.a0 self -> 0 < T ->
  exists d dd : R,
    RedlichKwong.get_diff_a_T self T = Ok d /\
    RedlichKwong.get_double_diff_a_T self T = Ok dd /\
    d < 0 /\ 0 < dd.
Proof.
  intros Hc Ha HT.
  rewrite RedlichKwong_get_diff_a_T_pos, RedlichKwong_get_double_diff_a_T_pos
    by assumption.
  do 2 eexists. split; [reflexivity |]. split; [reflexivity |].
  unfold rk_da, rk_d2a.
  assert (Hpw : 0 < Rpower (T / RedlichKwong.T_crit self) (- 0.5))
    by (unfold Rpower; apply exp_pos).
  assert (Hq : 0 < RedlichKwong.a0 self / T) by now apply Rdiv_lt_0_compat.
  assert (Hq2 : 0 < RedlichKwong.a0 self / T ^ 2)
    by (apply Rdiv_lt_0_compat; [assumption | nra]).
  set (p := Rpower _ _) in *. set (a := RedlichKwong.a0 self) in *.
  split.
  - replace (- 0.5 * a / T * p) with (- (0.5 * ((a / T) * p)))
      by (decimals; field; lra).
    pose proof (Rmult_lt_0_compat _ _ Hq Hpw). lra.
  - replace (0.75 * a / T ^ 2 * p) with (0.75 * ((a / T ^ 2) * p))
      by (decimals; field; lra).
    pose proof (Rmult_lt_0_compat _ _ Hq2 Hpw). lra.
Qed.

Lemma methane_rk_attributes :
  0 < RedlichKwong.T_crit methane_rk /\ 0 < RedlichKwong.a0 methane_rk.
Proof. simpl. split; lra. Defined.

Lemma RedlichKwong_derivative_signs_witness :
  0 < RedlichKwong.T_crit methane_rk /\ 0 < RedlichKwong.a0 methane_rk /\ 0 < 250 /\
  exists d dd : R,
    RedlichKwong.get_diff_a_T methane_rk 250 = Ok d /\
    RedlichKwong.get_double_diff_a_T methane_rk 250 = Ok dd /\
    d < 0 /\ 0 < dd.
Proof.
  destruct methane_rk_attributes as [Hc Ha].
  assert (HT : 0 < 250) by lra.
  split; [exact Hc |]. split; [exact Ha |]. split; [exact HT |].
  exact (@RedlichKwong_derivative_signs keeping_parent methane_rk 250 Hc Ha HT).
Defined.

(** For an instance with positive [T_crit], at every [T > 0] the three
    values Redlich-Kwong returns are tied by [T·a' = −a/2] and
    [T²·a'' = 3a/4]. *)
Theorem RedlichKwong_scaling {P : CubicEOS} (self : RedlichKwong.t) (T : R) :
  0 < RedlichKwong.T_crit self -> 0 < T ->
  exists a d dd : R,
    RedlichKwong.get_a self T = Ok a /\
    RedlichKwong.get_diff_a_T self T = Ok d /\
    RedlichKwong.get_double_diff_a_T self T = Ok dd /\
    T * d = - 0.5 * a /\ T ^ 2 * dd = 0.75 * a.
Proof.
  intros Hc HT.
  rewrite RedlichKwong_get_a_pos, RedlichKwong_get_diff_a_T_pos,
    RedlichKwong_get_double_diff_a_T_pos by assumption.
  do 3 eexists. split; [reflexivity |]. split; [reflexivity |].
  split; [reflexivity |].
  unfold rk_a, rk_da, rk_d2a. set (p := Rpower _ _).
  split; decimals; field; lra.
Qed.

Lemma RedlichKwong_scaling_witness :
  0 < RedlichKwong.T_crit methane_rk /\ 0 < 250 /\
  exists a d dd : R,
    RedlichKwong.get_a methane_rk 250 = Ok a /\
    RedlichKwong.get_diff_a_T methane_rk 250 = Ok d /\
    RedlichKwong.get_double_diff_a_T methane_rk 250 = Ok dd /\
    250 * d = - 0.5 * a /\ 250 ^ 2 * dd = 0.75 * a.
Proof.
  destruct methane_rk_attributes as [Hc _].
  assert (HT : 0 < 250) by lra.
  split; [exact Hc |]. split; [exact HT |].
  exact (@RedlichKwong_scaling keeping_parent methane_rk 250 Hc HT).
Defined.

(** For an instance with positive [T_crit] and [a0], the coefficient
    Redlich-Kwong returns decreases strictly as the temperature grows. *)
Theorem RedlichKwong_get_a_decreasing {P : CubicEOS} (self : RedlichKwong.t)
    (T1 T2 : R) :
  0 < RedlichKwong.T_crit self -> 0 < RedlichKwong.a0 self ->
  0 < T1 -> T1 < T2 ->
  exists a1 a2 : R,
    RedlichKwong.get_a self T1 = Ok a1 /\
    RedlichKwong.get_a self T2 = Ok a2 /\
    a2 < a1.
Proof.
  intros Hc Ha H1 H12.
  assert (H2 : 0 < T2) by lra.
  rewrite !RedlichKwong_get_a_pos by assumption.
  do 2 eexists. split; [reflexivity |]. split; [reflexivity |].
  unfold rk_a.
  pose proof (ratio_positive _ _ Hc H1) as Hr1.
  pose proof (ratio_positive _ _ Hc H2) as Hr2.
  rewrite !Rpower_minus_half by assumption.
  apply Rmult_lt_compat_l; [exact Ha |].
  apply Rinv_lt_contravar.
  - apply Rmult_lt_0_compat; now apply sqrt_lt_R0.
  - apply sqrt_lt_1_alt. split; [lra |].
    unfold Rdiv. apply Rmult_lt_compat_r; [now apply Rinv_0_lt_compat | exact H12].
Qed.

Lemma RedlichKwong_get_a_decreasing_witness :
  0 < RedlichKwong.T_crit methane_rk /\ 0 < RedlichKwong.a0 methane_rk /\
  0 < 150 /\ 150 < 250 /\
  exists a1 a2 : R,
    RedlichKwong.get_a methane_rk 150 = Ok a1 /\
    RedlichKwong.get_a methane_rk 250 = Ok a2 /\
    a2 < a1.
Proof.
  destruct methane_rk_attributes as [Hc Ha].
  assert (H1 : 0 < 150) by lra.
  assert (H12 : 150 < 250) by lra.
  split; [exact Hc |]. split; [exact Ha |]. split; [exact H1 |]. split; [exact H12 |].
  exact (@RedlichKwong_get_a_decreasing keeping_parent methane_rk 150 250 Hc Ha H1 H12).
Defined.

(** ** Soave-Redlich-Kwong and Peng-Robinson: the shape of the coefficient *)

Section SoaveShape.
Variables (a0 kappa Tc : R).
Hypothesis Hc : 0 < Tc.

Lemma sqrt_ratio_square (T : R) : 0 < T -> sqrt (T / Tc) * sqrt (T / Tc) = T / Tc.
Proof. intros HT. apply sqrt_sqrt, Rlt_le. now apply ratio_positive. Qed.

Lemma sqrt_ratio_increasing (T1 T2 : R) :
  0 < T1 -> T1 < T2 -> sqrt (T1 / Tc) < sqrt (T2 / Tc).
Proof.
  intros H1 H12. apply sqrt_lt_1_alt. split.
  - apply Rlt_le. now apply ratio_positive.
  - unfold Rdiv. apply Rmult_lt_compat_r; [now apply Rinv_0_lt_compat | exact H12].
Qed.

Lemma sqrt_ratio_zero_temperature :
  0 < kappa -> sqrt (soave_zero_temperature kappa Tc / Tc) = 1 + / kappa.
Proof.
  intros Hk. unfold soave_zero_temperature.
  pose proof (Rinv_0_lt_compat _ Hk).
  replace (Tc * (1 + / kappa) ^ 2 / Tc) with ((1 + / kappa) ^ 2) by (field; lra).
  apply sqrt_pow2. lra.
Qed.

Lemma soave_alpha0_factor (T : R) :
  0 < kappa -> soave_alpha0 kappa Tc T = kappa * (1 + / kappa - sqrt (T / Tc)).
Proof. intros Hk. unfold soave_alpha0. field. lra. Qed.

Lemma soave_alpha0_below (T : R) :
  0 < kappa -> 0 < T -> T < soave_zero_temperature kappa Tc ->
  0 < soave_alpha0 kappa Tc T.
Proof.
  intros Hk HT Hlt. rewrite soave_alpha0_factor by exact Hk.
  pose proof (sqrt_ratio_increasing _ _ HT Hlt) as Hs.
  rewrite sqrt_ratio_zero_temperature in Hs by exact Hk.
  apply Rmult_lt_0_compat; lra.
Qed.

Lemma soave_alpha0_above (T : R) :
  0 < kappa -> soave_zero_temperature kappa Tc < T ->
  soave_alpha0 kappa Tc T < 0.
Proof.
  intros Hk Hlt. rewrite soave_alpha0_factor by exact Hk.
  pose proof (soave_zero_temperature_pos _ _ Hk Hc) as H0.
  pose proof (sqrt_ratio_increasing _ _ H0 Hlt) as Hs.
  rewrite sqrt_ratio_zero_temperature in Hs by exact Hk.
  assert (0 < kappa * (sqrt (T / Tc) - (1 + / kappa)))
    by (apply Rmult_lt_0_compat; lra).
  lra.
Qed.

Lemma soave_d2a_closed (T : R) :
  0 < T ->
  soave_d2a a0 kappa Tc T = 0.5 * a0 * kappa * (1 + kappa) * sqrt (T / Tc) / T ^ 2.
Proof.
  intros HT. unfold soave_d2a, soave_alpha0.
  rewrite <- (sqrt_ratio_square T HT) at 1.
  set (s := sqrt (T / Tc)). decimals. field. lra.
Qed.

Lemma soave_da_negative (T : R) :
  0 < a0 -> 0 < kappa -> 0 < T -> T < soave_zero_temperature kappa Tc ->
  soave_da a0 kappa Tc T < 0.
Proof.
  intros Ha Hk HT Hlt. unfold soave_da.
  pose proof (soave_alpha0_below T Hk HT Hlt) as Hal.
  pose proof (sqrt_lt_R0 _ (ratio_positive _ _ Hc HT)) as Hs.
  assert (Hq : 0 < a0 * kappa / T)
    by (apply Rdiv_lt_0_compat; [now apply Rmult_lt_0_compat | exact HT]).
  pose proof (Rmult_lt_0_compat _ _ (Rmult_lt_0_compat _ _ Hq Hs) Hal). lra.
Qed.

Lemma soave_da_positive (T : R) :
  0 < a0 -> 0 < kappa -> soave_zero_temperature kappa Tc < T ->
  0 < soave_da a0 kappa Tc T.
Proof.
  intros Ha Hk Hlt. unfold soave_da.
  pose proof (soave_zero_temperature_pos _ _ Hk Hc) as H0.
  assert (HT : 0 < T) by lra.
  pose proof (soave_alpha0_above T Hk Hlt) as Hal.
  pose proof (sqrt_lt_R0 _ (ratio_positive _ _ Hc HT)) as Hs.
  assert (Hq : 0 < a0 * kappa / T)
    by (apply Rdiv_lt_0_compat; [now apply Rmult_lt_0_compat | exact HT]).
  assert (0 < (a0 * kappa / T * sqrt (T / Tc)) * - soave_alpha0 kappa Tc T)
    by (apply Rmult_lt_0_compat; [now apply Rmult_lt_0_compat | lra]).
  lra.
Qed.

Lemma soave_a_decreasing (T1 T2 : R) :
  0 < a0 -> 0 < kappa -> 0 < T1 -> T1 < T2 -> T2 <= soave_zero_temperature kappa Tc ->
  soave_a a0 kappa Tc T2 < soave_a a0 kappa Tc T1.
Proof.
  intros Ha Hk H1 H12 H2. unfold soave_a.
  assert (Hal2 : 0 <= soave_alpha0 kappa Tc T2).
  { destruct H2 as [H2 | ->].
    - apply Rlt_le, soave_alpha0_below; (assumption || lra).
    - rewrite soave_alpha0_vanishes by assumption. lra. }
  assert (Hlt : soave_alpha0 kappa Tc T2 < soave_alpha0 kappa Tc T1).
  { unfold soave_alpha0. pose proof (sqrt_ratio_increasing _ _ H1 H12). nra. }
  apply Rmult_lt_compat_r; [exact Ha |]. nra.
Qed.

End SoaveShape.

(** For instances with positive [T_crit], at every [T > 0] the second
    derivative that Soave-Redlich-Kwong and Peng-Robinson return does not
    depend on [α0]: it is [0.5·a0·κ·(1 + κ)·√Tr/T²], strictly positive when
    [a0] and [κ] are. *)
Theorem soave_second_derivative_closed {P : CubicEOS} (T : R) :
  0 < T ->
  (forall self : SoaveRedlichKwong.t,
     0 < SoaveRedlichKwong.T_crit self ->
     let a0 := SoaveRedlichKwong.a0 self in
     let kappa := SoaveRedlichKwong.kappa self in
     let dd := 0.5 * a0 * kappa * (1 + kappa)
               * sqrt (T / SoaveRedlichKwong.T_crit self) / T ^ 2 in
     SoaveRedlichKwong.get_double_diff_a_T self T = Ok dd /\
     (0 < a0 -> 0 < kappa -> 0 < dd)) /\
  (forall self : PengRobinson.t,
     0 < PengRobinson.T_crit self ->
     let a0 := PengRobinson.a0 self in
     let kappa := PengRobinson.kappa self in
     let dd := 0.5 * a0 * kappa * (1 + kappa)
               * sqrt (T / PengRobinson.T_crit self) / T ^ 2 in
     PengRobinson.get_double_diff_a_T self T = Ok dd /\
     (0 < a0 -> 0 < kappa -> 0 < dd)).
Proof.
  intros HT.
  assert (Hpos : forall a k Tc, 0 < Tc -> 0 < a -> 0 < k ->
            0 < 0.5 * a * k * (1 + k) * sqrt (T / Tc) / T ^ 2).
  { intros a k Tc Hc Ha Hk.
    apply Rdiv_lt_0_compat; [| nra].
    pose proof (sqrt_lt_R0 _ (ratio_positive _ _ Hc HT)) as Hs.
    assert (H1 : 0 < 0.5 * a) by lra.
    assert (H2 : 0 < 0.5 * a * k) by now apply Rmult_lt_0_compat.
    assert (H3 : 0 < 0.5 * a * k * (1 + k)) by (apply Rmult_lt_0_compat; lra).
    now apply Rmult_lt_0_compat. }
  split; intros self Hc a0 kappa dd.
  - rewrite SoaveRedlichKwong_get_double_diff_a_T_pos, soave_d2a_closed by assumption.
    split; [reflexivity | now apply Hpos].
  - rewrite PengRobinson_get_double_diff_a_T_pos, soave_d2a_closed by assumption.
    split; [reflexivity | now apply Hpos].
Qed.

Lemma methane_srk_attributes :
  0 < SoaveRedlichKwong.T_crit methane_srk /\ 0 < SoaveRedlichKwong.a0 methane_srk /\
  0 < SoaveRedlichKwong.kappa methane_srk.
Proof. simpl. repeat split; lra. Defined.

Lemma methane_pr_attributes :
  0 < PengRobinson.T_crit methane_pr /\ 0 < PengRobinson.a0 methane_pr /\
  0 < PengRobinson.kappa methane_pr.
Proof. simpl. repeat split; lra. Defined.

Lemma soave_second_derivative_closed_witness :
  0 < 250 /\
  0 < SoaveRedlichKwong.T_crit methane_srk /\ 0 < SoaveRedlichKwong.a0 methane_srk /\
  0 < SoaveRedlichKwong.kappa methane_srk /\
  0 < PengRobinson.T_crit methane_pr /\ 0 < PengRobinson.a0 methane_pr /\
  0 < PengRobinson.kappa methane_pr /\
  (exists dd, SoaveRedlichKwong.get_double_diff_a_T methane_srk 250 = Ok dd /\ 0 < dd) /\
  (exists dd, PengRobinson.get_double_diff_a_T methane_pr 250 = Ok dd /\ 0 < dd).
Proof.
  assert (HT : 0 < 250) by lra.
  destruct methane_srk_attributes as (Sc & Sa & Sk).
  destruct methane_pr_attributes as (Pc & Pa & Pk).
  destruct (@soave_second_derivative_closed keeping_parent 250 HT) as [Hs Hp].
  destruct (Hs methane_srk Sc) as [S1 S2].
  destruct (Hp methane_pr Pc) as [P1 P2].
  split; [exact HT |].
  split; [exact Sc |]. split; [exact Sa |]. split; [exact Sk |].
  split; [exact Pc |]. split; [exact Pa |]. split; [exact Pk |].
  split; eexists; split; [exact S1 | exact (S2 Sa Sk) | exact P1 | exact (P2 Pa Pk)].
Defined.

(** For instances with positive [T_crit], [a0] and [κ], the first
    derivative that Soave-Redlich-Kwong and Peng-Robinson return is strictly
    negative below [T_crit·(1 + 1/κ)²] and strictly positive above it: past
    that temperature the coefficient grows again. *)
Theorem soave_first_derivative_sign {P : CubicEOS} (T : R) :
  0 < T ->
  (forall self : SoaveRedlichKwong.t,
     0 < SoaveRedlichKwong.T_crit self -> 0 < SoaveRedlichKwong.a0 self ->
     0 < SoaveRedlichKwong.kappa self ->
     let T0 := soave_zero_temperature (SoaveRedlichKwong.kappa self)
                 (SoaveRedlichKwong.T_crit self) in
     exists d, SoaveRedlichKwong.get_diff_a_T self T = Ok d /\
       (T < T0 -> d < 0) /\ (T0 < T -> 0 < d)) /\
  (forall self : PengRobinson.t,
     0 < PengRobinson.T_crit self -> 0 < PengRobinson.a0 self ->
     0 < PengRobinson.kappa self ->
     let T0 := soave_zero_temperature (PengRobinson.kappa self)
                 (PengRobinson.T_crit self) in
     exists d, PengRobinson.get_diff_a_T self T = Ok d /\
       (T < T0 -> d < 0) /\ (T0 < T -> 0 < d)).
Proof.
  intros HT. split; intros self Hc Ha Hk T0.
  - rewrite SoaveRedlichKwong_get_diff_a_T_pos by assumption.
    eexists. split; [reflexivity |]. split; intros Hlt.
    + now apply soave_da_negative.
    + now apply soave_da_positive.
  - rewrite PengRobinson_get_diff_a_T_pos by assumption.
    eexists. split; [reflexivity |]. split; intros Hlt.
    + now apply soave_da_negative.
    + now apply soave_da_positive.
Qed.

Lemma soave_zero_temperature_bounds (kappa Tc : R) :
  0 < Tc -> 0.37 <= kappa <= 1 ->
  4 * Tc <= soave_zero_temperature kappa Tc < 16 * Tc.
Proof.
  intros Hc [Hlo Hhi]. unfold soave_zero_temperature.
  assert (Hk : 0 < kappa) by lra.
  assert (H1 : 1 <= / kappa).
  { rewrite <- Rinv_1 at 1. apply Rinv_le_contravar; lra. }
  assert (H3 : / kappa < 3).
  { apply Rle_lt_trans with (/ 0.37); [apply Rinv_le_contravar; lra | lra]. }
  set (c := 1 + / kappa) in *.
  assert (Hc4 : 4 <= c ^ 2) by (unfold c; nra).
  assert (Hc16 : c ^ 2 < 16) by (unfold c; nra).
  split.
  - replace (4 * Tc) with (Tc * 4) by ring. apply Rmult_le_compat_l; lra.
  - replace (16 * Tc) with (Tc * 16) by ring. apply Rmult_lt_compat_l; lra.
Defined.

Lemma soave_first_derivative_sign_witness :
  0 < 250 /\ 0 < 5000 /\
  0 < SoaveRedlichKwong.T_crit methane_srk /\ 0 < SoaveRedlichKwong.a0 methane_srk /\
  0 < SoaveRedlichKwong.kappa methane_srk /\
  0 < PengRobinson.T_crit methane_pr /\ 0 < PengRobinson.a0 methane_pr /\
  0 < PengRobinson.kappa methane_pr /\
  250 < soave_zero_temperature (SoaveRedlichKwong.kappa methane_srk) 190.6 < 5000 /\
  250 < soave_zero_temperature (PengRobinson.kappa methane_pr) 190.6 < 5000 /\
  (exists d, SoaveRedlichKwong.get_diff_a_T methane_srk 250 = Ok d /\ d < 0) /\
  (exists d, SoaveRedlichKwong.get_diff_a_T methane_srk 5000 = Ok d /\ 0 < d) /\
  (exists d, PengRobinson.get_diff_a_T methane_pr 250 = Ok d /\ d < 0) /\
  (exists d, PengRobinson.get_diff_a_T methane_pr 5000 = Ok d /\ 0 < d).
Proof.
  assert (Hlow : 0 < 250) by lra.
  assert (Hhigh : 0 < 5000) by lra.
  destruct methane_srk_attributes as (Sc & Sa & Sk).
  destruct methane_pr_attributes as (Pc & Pa & Pk).
  assert (Hc : 0 < 190.6) by lra.
  assert (Sb : 0.37 <= SoaveRedlichKwong.kappa methane_srk <= 1) by (simpl; lra).
  assert (Pb : 0.37 <= PengRobinson.kappa methane_pr <= 1) by (simpl; lra).
  pose proof (soave_zero_temperature_bounds _ _ Hc Sb) as [S4 S16].
  pose proof (soave_zero_temperature_bounds _ _ Hc Pb) as [P4 P16].
  destruct (@soave_first_derivative_sign keeping_parent 250 Hlow) as [Ls Lp].
  destruct (@soave_first_derivative_sign keeping_parent 5000 Hhigh) as [Us Up].
  destruct (Ls methane_srk Sc Sa Sk) as (d1 & E1 & N1 & _).
  destruct (Us methane_srk Sc Sa Sk) as (d2 & E2 & _ & N2).
  destruct (Lp methane_pr Pc Pa Pk) as (d3 & E3 & N3 & _).
  destruct (Up methane_pr Pc Pa Pk) as (d4 & E4 & _ & N4).
  cbn [SoaveRedlichKwong.T_crit methane_srk] in N1, N2.
  cbn [PengRobinson.T_crit methane_pr] in N3, N4.
  split; [exact Hlow |]. split; [exact Hhigh |].
  split; [exact Sc |]. split; [exact Sa |]. split; [exact Sk |].
  split; [exact Pc |]. split; [exact Pa |]. split; [exact Pk |].
  split; [lra |]. split; [lra |].
  split; [exists d1; split; [exact E1 | apply N1; lra] |].
  split; [exists d2; split; [exact E2 | apply N2; lra] |].
  split; [exists d3; split; [exact E3 | apply N3; lra] |].
  exists d4; split; [exact E4 | apply N4; lra].
Defined.

(** For instances with positive [T_crit] and [κ], at [T_crit·(1 + 1/κ)²]
    both the coefficient and the first derivative that Soave-Redlich-Kwong
    and Peng-Robinson return are zero: the coefficient touches zero at its
    minimum. *)
Theorem soave_minimum_is_zero {P : CubicEOS} :
  (forall self : SoaveRedlichKwong.t,
     0 < SoaveRedlichKwong.T_crit self -> 0 < SoaveRedlichKwong.kappa self ->
     let T0 := soave_zero_temperature (SoaveRedlichKwong.kappa self)
                 (SoaveRedlichKwong.T_crit self) in
     SoaveRedlichKwong.get_a self T0 = Ok 0 /\
     SoaveRedlichKwong.get_diff_a_T self T0 = Ok 0) /\
  (forall self : PengRobinson.t,
     0 < PengRobinson.T_crit self -> 0 < PengRobinson.kappa self ->
     let T0 := soave_zero_temperature (PengRobinson.kappa self)
                 (PengRobinson.T_crit self) in
     PengRobinson.get_a self T0 = Ok 0 /\
     PengRobinson.get_diff_a_T self T0 = Ok 0).
Proof.
  split; intros self Hc Hk T0;
    pose proof (soave_zero_temperature_pos _ _ Hk Hc) as H0.
  - rewrite SoaveRedlichKwong_get_a_pos, SoaveRedlichKwong_get_diff_a_T_pos
      by assumption.
    unfold soave_a, soave_da, T0. rewrite soave_alpha0_vanishes by assumption.
    split; f_equal; ring.
  - rewrite PengRobinson_get_a_pos, PengRobinson_get_diff_a_T_pos by assumption.
    unfold soave_a, soave_da, T0. rewrite soave_alpha0_vanishes by assumption.
    split; f_equal; ring.
Qed.

Lemma soave_minimum_is_zero_witness :
  0 < SoaveRedlichKwong.T_crit methane_srk /\
  0 < SoaveRedlichKwong.kappa methane_srk /\
  0 < PengRobinson.T_crit methane_pr /\ 0 < PengRobinson.kappa methane_pr /\
  SoaveRedlichKwong.get_diff_a_T methane_srk
    (soave_zero_temperature (SoaveRedlichKwong.kappa methane_srk) 190.6) = Ok 0 /\
  PengRobinson.get_a methane_pr
    (soave_zero_temperature (PengRobinson.kappa methane_pr) 190.6) = Ok 0 /\
  PengRobinson.get_diff_a_T methane_pr
    (soave_zero_temperature (PengRobinson.kappa methane_pr) 190.6) = Ok 0.
Proof.
  destruct methane_srk_attributes as (Sc & _ & Sk).
  destruct methane_pr_attributes as (Pc & _ & Pk).
  destruct (@soave_minimum_is_zero keeping_parent) as [Hs Hp].
  destruct (Hs methane_srk Sc Sk) as [_ S2].
  destruct (Hp methane_pr Pc Pk) as [P1 P2].
  split; [exact Sc |]. split; [exact Sk |]. split; [exact Pc |]. split; [exact Pk |].
  split; [exact S2 |]. split; [exact P1 | exact P2].
Defined.

(** For instances with positive [T_crit], [a0] and [κ], the coefficient
    that Soave-Redlich-Kwong and Peng-Robinson return decreases strictly as
    the temperature grows, up to [T_crit·(1 + 1/κ)²]. *)
Theorem soave_get_a_decreasing {P : CubicEOS} (T1 T2 : R) :
  0 < T1 -> T1 < T2 ->
  (forall self : SoaveRedlichKwong.t,
     0 < SoaveRedlichKwong.T_crit self -> 0 < SoaveRedlichKwong.a0 self ->
     0 < SoaveRedlichKwong.kappa self ->
     T2 <= soave_zero_temperature (SoaveRedlichKwong.kappa self)
             (SoaveRedlichKwong.T_crit self) ->
     exists a1 a2, SoaveRedlichKwong.get_a self T1 = Ok a1 /\
       SoaveRedlichKwong.get_a self T2 = Ok a2 /\ a2 < a1) /\
  (forall self : PengRobinson.t,
     0 < PengRobinson.T_crit self -> 0 < PengRobinson.a0 self ->
     0 < PengRobinson.kappa self ->
     T2 <= soave_zero_temperature (PengRobinson.kappa self)
             (PengRobinson.T_crit self) ->
     exists a1 a2, PengRobinson.get_a self T1 = Ok a1 /\
       PengRobinson.get_a self T2 = Ok a2 /\ a2 < a1).
Proof.
  intros H1 H12. assert (H2 : 0 < T2) by lra.
  split; intros self Hc Ha Hk Hle.
  - rewrite !SoaveRedlichKwong_get_a_pos by assumption.
    do 2 eexists. split; [reflexivity |]. split; [reflexivity |].
    now apply soave_a_decreasing.
  - rewrite !PengRobinson_get_a_pos by assumption.
    do 2 eexists. split; [reflexivity |]. split; [reflexivity |].
    now apply soave_a_decreasing.
Qed.

Lemma soave_get_a_decreasing_witness :
  0 < 150 /\ 150 < 250 /\
  0 < SoaveRedlichKwong.T_crit methane_srk /\ 0 < SoaveRedlichKwong.a0 methane_srk /\
  0 < SoaveRedlichKwong.kappa methane_srk /\
  0 < PengRobinson.T_crit methane_pr /\ 0 < PengRobinson.a0 methane_pr /\
  0 < PengRobinson.kappa methane_pr /\
  250 <= soave_zero_temperature (SoaveRedlichKwong.kappa methane_srk)
           (SoaveRedlichKwong.T_crit methane_srk) /\
  250 <= soave_zero_temperature (PengRobinson.kappa methane_pr)
           (PengRobinson.T_crit methane_pr) /\
  (exists a1 a2, SoaveRedlichKwong.get_a methane_srk 150 = Ok a1 /\
     SoaveRedlichKwong.get_a methane_srk 250 = Ok a2 /\ a2 < a1) /\
  (exists a1 a2, PengRobinson.get_a methane_pr 150 = Ok a1 /\
     PengRobinson.get_a methane_pr 250 = Ok a2 /\ a2 < a1).
Proof.
  assert (H1 : 0 < 150) by lra.
  assert (H12 : 150 < 250) by lra.
  destruct methane_srk_attributes as (Sc & Sa & Sk).
  destruct methane_pr_attributes as (Pc & Pa & Pk).
  assert (Sb : 0.37 <= SoaveRedlichKwong.kappa methane_srk <= 1) by (simpl; lra).
  assert (Pb : 0.37 <= PengRobinson.kappa methane_pr <= 1) by (simpl; lra).
  pose proof (soave_zero_temperature_bounds _ _ Sc Sb) as [S4 _].
  pose proof (soave_zero_temperature_bounds _ _ Pc Pb) as [P4 _].
  assert (S0 : 250 <= soave_zero_temperature (SoaveRedlichKwong.kappa methane_srk)
                        (SoaveRedlichKwong.T_crit methane_srk))
    by (cbn [SoaveRedlichKwong.T_crit methane_srk] in *; lra).
  assert (P0 : 250 <= soave_zero_temperature (PengRobinson.kappa methane_pr)
                        (PengRobinson.T_crit methane_pr))
    by (cbn [PengRobinson.T_crit methane_pr] in *; lra).
  destruct (@soave_get_a_decreasing keeping_parent 150 250 H1 H12) as [Hs Hp].
  split; [exact H1 |]. split; [exact H12 |].
  split; [exact Sc |]. split; [exact Sa |]. split; [exact Sk |].
  split; [exact Pc |]. split; [exact Pa |]. split; [exact Pk |].
  split; [exact S0 |]. split; [exact P0 |].
  split; [exact (Hs methane_srk Sc Sa Sk S0) | exact (Hp methane_pr Pc Pa Pk P0)].
Defined.

(** ** Where the methods raise *)

Lemma py_pow_half_negative (x : R) : x < 0 -> py_pow_half x = Raise ValueError.
Proof.
  intros Hx. unfold py_pow_half. destruct (Rlt_dec x 0) as [_ | N]; [reflexivity | lra].
Qed.

(** An instance built from a fluid whose critical temperature is zero (the
    constructors accept it) raises [ZeroDivisionError] from each of its three
    methods, at every temperature. *)
Theorem zero_T_crit_raises {P : CubicEOS} (fluid : Fluid.t) (T : R) :
  Fluid.T_crit fluid = 0 ->
  (forall eos, RedlichKwong.__init__ fluid = Ok eos ->
     RedlichKwong.get_a eos T = Raise ZeroDivisionError /\
     RedlichKwong.get_diff_a_T eos T = Raise ZeroDivisionError /\
     RedlichKwong.get_double_diff_a_T eos T = Raise ZeroDivisionError) /\
  (forall eos, SoaveRedlichKwong.__init__ fluid = Ok eos ->
     SoaveRedlichKwong.get_a eos T = Raise ZeroDivisionError /\
     SoaveRedlichKwong.get_diff_a_T eos T = Raise ZeroDivisionError /\
     SoaveRedlichKwong.get_double_diff_a_T eos T = Raise ZeroDivisionError) /\
  (forall eos, PengRobinson.__init__ fluid = Ok eos ->
     PengRobinson.get_a eos T = Raise ZeroDivisionError /\
     PengRobinson.get_diff_a_T eos T = Raise ZeroDivisionError /\
     PengRobinson.get_double_diff_a_T eos T = Raise ZeroDivisionError).
Proof.
  intros Hz. split; [| split]; intros eos H.
  - apply RedlichKwong_init_inv in H as (_ & Ec & _). rewrite Hz in Ec.
    unfold RedlichKwong.get_a, RedlichKwong.get_diff_a_T,
      RedlichKwong.get_double_diff_a_T.
    rewrite Ec, py_div_zero. auto.
  - apply SoaveRedlichKwong_init_inv in H as (_ & Ec & _). rewrite Hz in Ec.
    unfold SoaveRedlichKwong.get_a, SoaveRedlichKwong.get_diff_a_T,
      SoaveRedlichKwong.get_double_diff_a_T.
    rewrite Ec, py_div_zero. auto.
  - apply PengRobinson_init_inv in H as (_ & Ec & _). rewrite Hz in Ec.
    unfold PengRobinson.get_a, PengRobinson.get_diff_a_T,
      PengRobinson.get_double_diff_a_T.
    rewrite Ec, py_div_zero. auto.
Qed.

Lemma zero_T_crit_raises_witness :
  Fluid.T_crit no_temperature = 0 /\
  (exists eos : @RedlichKwong.t keeping_parent,
     RedlichKwong.__init__ no_temperature = Ok eos /\
     RedlichKwong.get_a eos 250 = Raise ZeroDivisionError) /\
  (exists eos : @SoaveRedlichKwong.t keeping_parent,
     SoaveRedlichKwong.__init__ no_temperature = Ok eos /\
     SoaveRedlichKwong.get_a eos 250 = Raise ZeroDivisionError) /\
  (exists eos : @PengRobinson.t keeping_parent,
     PengRobinson.__init__ no_temperature = Ok eos /\
     PengRobinson.get_a eos 250 = Raise ZeroDivisionError).
Proof.
  assert (Hp : Fluid.p_crit no_temperature <> 0) by (simpl; lra).
  destruct (keeping_parent_builds no_temperature Hp) as ([rk B1] & [srk B2] & [pr B3]).
  destruct (@zero_T_crit_raises keeping_parent no_temperature 250 eq_refl)
    as (Hrk & Hsrk & Hpr).
  split; [reflexivity |].
  split; [exists rk; split; [exact B1 | exact (proj1 (Hrk _ B1))] |].
  split; [exists srk; split; [exact B2 | exact (proj1 (Hsrk _ B2))] |].
  exists pr; split; [exact B3 | exact (proj1 (Hpr _ B3))].
Defined.

(** At [T = 0], for instances whose [T_crit] is not zero: the three methods
    of Redlich-Kwong raise [ZeroDivisionError]; [get_a] of
    Soave-Redlich-Kwong and of Peng-Robinson returns [(1 + κ)²·a0], while
    their two derivative methods raise [ZeroDivisionError]. *)
Theorem zero_temperature_behaviour {P : CubicEOS} :
  (forall self : RedlichKwong.t,
     RedlichKwong.T_crit self <> 0 ->
     RedlichKwong.get_a self 0 = Raise ZeroDivisionError /\
     RedlichKwong.get_diff_a_T self 0 = Raise ZeroDivisionError /\
     RedlichKwong.get_double_diff_a_T self 0 = Raise ZeroDivisionError) /\
  (forall self : SoaveRedlichKwong.t,
     SoaveRedlichKwong.T_crit self <> 0 ->
     SoaveRedlichKwong.get_a self 0 =
       Ok ((1 + SoaveRedlichKwong.kappa self) ^ 2 * SoaveRedlichKwong.a0 self) /\
     SoaveRedlichKwong.get_diff_a_T self 0 = Raise ZeroDivisionError /\
     SoaveRedlichKwong.get_double_diff_a_T self 0 = Raise ZeroDivisionError) /\
  (forall self : PengRobinson.t,
     PengRobinson.T_crit self <> 0 ->
     PengRobinson.get_a self 0 =
       Ok ((1 + PengRobinson.kappa self) ^ 2 * PengRobinson.a0 self) /\
     PengRobinson.get_diff_a_T self 0 = Raise ZeroDivisionError /\
     PengRobinson.get_double_diff_a_T self 0 = Raise ZeroDivisionError).
Proof.
  assert (Hr : forall Tc, Tc <> 0 -> py_div 0 Tc = Ok 0).
  { intros Tc Hc. rewrite py_div_ok by exact Hc. f_equal. field. exact Hc. }
  assert (Hs : py_pow_half 0 = Ok 0) by (rewrite py_pow_half_ok by lra; now rewrite sqrt_0).
  assert (H2 : forall x, py_div x (0 ^ 2) = Raise ZeroDivisionError).
  { intros x. replace (0 ^ 2) with 0 by ring. apply py_div_zero. }
  split; [| split]; intros self Hc.
  - unfold RedlichKwong.get_a, RedlichKwong.get_diff_a_T,
      RedlichKwong.get_double_diff_a_T.
    rewrite (Hr _ Hc). cbn [bind]. rewrite Hs, H2, !py_div_zero. cbn [bind].
    rewrite py_div_zero. auto.
  - unfold SoaveRedlichKwong.get_a, SoaveRedlichKwong.get_diff_a_T,
      SoaveRedlichKwong.get_double_diff_a_T.
    rewrite (Hr _ Hc). cbn [bind]. rewrite Hs, H2, !py_div_zero. cbn [bind].
    repeat split. f_equal. ring.
  - unfold PengRobinson.get_a, PengRobinson.get_diff_a_T,
      PengRobinson.get_double_diff_a_T.
    rewrite (Hr _ Hc). cbn [bind]. rewrite Hs, H2, !py_div_zero. cbn [bind].
    repeat split. f_equal. ring.
Qed.

Lemma zero_temperature_behaviour_witness :
  RedlichKwong.T_crit methane_rk <> 0 /\
  SoaveRedlichKwong.T_crit methane_srk <> 0 /\
  PengRobinson.T_crit methane_pr <> 0 /\
  RedlichKwong.get_a methane_rk 0 = Raise ZeroDivisionError /\
  SoaveRedlichKwong.get_a methane_srk 0 =
    Ok ((1 + SoaveRedlichKwong.kappa methane_srk) ^ 2
        * SoaveRedlichKwong.a0 methane_srk) /\
  SoaveRedlichKwong.get_diff_a_T methane_srk 0 = Raise ZeroDivisionError /\
  PengRobinson.get_double_diff_a_T methane_pr 0 = Raise ZeroDivisionError.
Proof.
  assert (Hrk : RedlichKwong.T_crit methane_rk <> 0) by (simpl; lra).
  assert (Hsrk : SoaveRedlichKwong.T_crit methane_srk <> 0) by (simpl; lra).
  assert (Hpr : PengRobinson.T_crit methane_pr <> 0) by (simpl; lra).
  destruct (@zero_temperature_behaviour keeping_parent) as (Z1 & Z2 & Z3).
  destruct (Z1 methane_rk Hrk) as (R1 & _ & _).
  destruct (Z2 methane_srk Hsrk) as (S1 & S2 & _).
  destruct (Z3 methane_pr Hpr) as (_ & _ & P3).
  split; [exact Hrk |]. split; [exact Hsrk |]. split; [exact Hpr |].
  split; [exact R1 |]. split; [exact S1 |]. split; [exact S2 | exact P3].
Defined.

(** Where the reduced temperature [T/T_crit] is negative no method returns
    a real number: the power [Tr ** 0.5] has none. *)
Theorem negative_reduced_temperature {P : CubicEOS} (T : R) :
  (forall self : RedlichKwong.t,
     T / RedlichKwong.T_crit self < 0 ->
     forall a : R,
       RedlichKwong.get_a self T <> Ok a /\
       RedlichKwong.get_diff_a_T self T <> Ok a /\
       RedlichKwong.get_double_diff_a_T self T <> Ok a) /\
  (forall self : SoaveRedlichKwong.t,
     T / SoaveRedlichKwong.T_crit self < 0 ->
     forall a : R,
       SoaveRedlichKwong.get_a self T <> Ok a /\
       SoaveRedlichKwong.get_diff_a_T self T <> Ok a /\
       SoaveRedlichKwong.get_double_diff_a_T self T <> Ok a) /\
  (forall self : PengRobinson.t,
     T / PengRobinson.T_crit self < 0 ->
     forall a : R,
       PengRobinson.get_a self T <> Ok a /\
       PengRobinson.get_diff_a_T self T <> Ok a /\
       PengRobinson.get_double_diff_a_T self T <> Ok a).
Proof.
  assert (Hd : forall Tc, T / Tc < 0 -> py_div T Tc = Ok (T / Tc)).
  { intros Tc Hn. apply py_div_ok. intros ->. unfold Rdiv in Hn.
    rewrite Rinv_0, Rmult_0_r in Hn. lra. }
  assert (Hq : forall (x y : R) (k : R -> result R) (a : R),
            (q <- py_div x y ;; k q) = Ok a -> exists q, k q = Ok a).
  { intros x y k a H. apply bind_Ok_inv in H as (q & _ & H). now exists q. }
  split; [| split]; intros self Hn a; pose proof (py_pow_half_negative _ Hn) as Hv.
  - unfold RedlichKwong.get_a, RedlichKwong.get_diff_a_T,
      RedlichKwong.get_double_diff_a_T.
    rewrite (Hd _ Hn). cbn [bind]. rewrite Hv. cbn [bind].
    split; [discriminate |].
    split; intros H; apply Hq in H as (q & H); discriminate.
  - unfold SoaveRedlichKwong.get_a, SoaveRedlichKwong.get_diff_a_T,
      SoaveRedlichKwong.get_double_diff_a_T.
    rewrite (Hd _ Hn). cbn [bind]. rewrite Hv. cbn [bind].
    repeat split; discriminate.
  - unfold PengRobinson.get_a, PengRobinson.get_diff_a_T,
      PengRobinson.get_double_diff_a_T.
    rewrite (Hd _ Hn). cbn [bind]. rewrite Hv. cbn [bind].
    repeat split; discriminate.
Qed.

Lemma negative_reduced_temperature_witness :
  - 250 / RedlichKwong.T_crit methane_rk < 0 /\
  - 250 / SoaveRedlichKwong.T_crit methane_srk < 0 /\
  - 250 / PengRobinson.T_crit methane_pr < 0 /\
  RedlichKwong.get_a methane_rk (- 250) <> Ok 0 /\
  SoaveRedlichKwong.get_a methane_srk (- 250) <> Ok 0 /\
  PengRobinson.get_a methane_pr (- 250) <> Ok 0.
Proof.
  assert (Hrk : - 250 / RedlichKwong.T_crit methane_rk < 0) by (simpl; lra).
  assert (Hsrk : - 250 / SoaveRedlichKwong.T_crit methane_srk < 0) by (simpl; lra).
  assert (Hpr : - 250 / PengRobinson.T_crit methane_pr < 0) by (simpl; lra).
  destruct (@negative_reduced_temperature keeping_parent (- 250)) as (N1 & N2 & N3).
  split; [exact Hrk |]. split; [exact Hsrk |]. split; [exact Hpr |].
  split; [exact (proj1 (N1 methane_rk Hrk 0)) |].
  split; [exact (proj1 (N2 methane_srk Hsrk 0)) | exact (proj1 (N3 methane_pr Hpr 0))].
Defined.

(** ** The derivatives at the critical temperature *)

(** For instances with positive [T_crit], at [T = T_crit]: Redlich-Kwong
    returns [−a0/(2·T_crit)] and [3·a0/(4·T_crit²)] as first and second
    derivative; Soave-Redlich-Kwong and Peng-Robinson return
    [−a0·κ/T_crit] and [a0·κ·(1 + κ)/(2·T_crit²)]. *)
Theorem derivatives_at_critical_temperature {P : CubicEOS} :
  (forall self : RedlichKwong.t,
     let Tc := RedlichKwong.T_crit self in
     let a0 := RedlichKwong.a0 self in
     0 < Tc ->
     RedlichKwong.get_diff_a_T self Tc = Ok (- a0 / (2 * Tc)) /\
     RedlichKwong.get_double_diff_a_T self Tc = Ok (3 * a0 / (4 * Tc ^ 2))) /\
  (forall self : SoaveRedlichKwong.t,
     let Tc := SoaveRedlichKwong.T_crit self in
     let a0 := SoaveRedlichKwong.a0 self in
     let kappa := SoaveRedlichKwong.kappa self in
     0 < Tc ->
     SoaveRedlichKwong.get_diff_a_T self Tc = Ok (- a0 * kappa / Tc) /\
     SoaveRedlichKwong.get_double_diff_a_T self Tc =
       Ok (a0 * kappa * (1 + kappa) / (2 * Tc ^ 2))) /\
  (forall self : PengRobinson.t,
     let Tc := PengRobinson.T_crit self in
     let a0 := PengRobinson.a0 self in
     let kappa := PengRobinson.kappa self in
     0 < Tc ->
     PengRobinson.get_diff_a_T self Tc = Ok (- a0 * kappa / Tc) /\
     PengRobinson.get_double_diff_a_T self Tc =
       Ok (a0 * kappa * (1 + kappa) / (2 * Tc ^ 2))).
Proof.
  assert (E1 : forall Tc, 0 < Tc -> Tc / Tc = 1) by (intros; field; lra).
  assert (Ep : forall Tc, 0 < Tc -> Rpower (Tc / Tc) (- 0.5) = 1).
  { intros Tc Hc. rewrite (E1 _ Hc), Rpower_minus_half, sqrt_1 by lra. field. }
  split; [| split]; intros self; cbv zeta; intros Hc.
  - rewrite RedlichKwong_get_diff_a_T_pos, RedlichKwong_get_double_diff_a_T_pos
      by assumption.
    unfold rk_da, rk_d2a. rewrite (Ep _ Hc). split; f_equal; decimals; field; lra.
  - rewrite SoaveRedlichKwong_get_diff_a_T_pos,
      SoaveRedlichKwong_get_double_diff_a_T_pos by assumption.
    unfold soave_da, soave_d2a, soave_alpha0. rewrite (E1 _ Hc), sqrt_1.
    split; f_equal; decimals; field; lra.
  - rewrite PengRobinson_get_diff_a_T_pos, PengRobinson_get_double_diff_a_T_pos
      by assumption.
    unfold soave_da, soave_d2a, soave_alpha0. rewrite (E1 _ Hc), sqrt_1.
    split; f_equal; decimals; field; lra.
Qed.

Lemma derivatives_at_critical_temperature_witness :
  0 < RedlichKwong.T_crit methane_rk /\
  0 < SoaveRedlichKwong.T_crit methane_srk /\
  0 < PengRobinson.T_crit methane_pr /\
  RedlichKwong.get_diff_a_T methane_rk 190.6 =
    Ok (- RedlichKwong.a0 methane_rk / (2 * 190.6)) /\
  SoaveRedlichKwong.get_diff_a_T methane_srk 190.6 =
    Ok (- SoaveRedlichKwong.a0 methane_srk * SoaveRedlichKwong.kappa methane_srk
        / 190.6) /\
  PengRobinson.get_diff_a_T methane_pr 190.6 =
    Ok (- PengRobinson.a0 methane_pr * PengRobinson.kappa methane_pr / 190.6).
Proof.
  destruct methane_rk_attributes as [Rc _].
  destruct methane_srk_attributes as (Sc & _ & _).
  destruct methane_pr_attributes as (Pc & _ & _).
  destruct (@derivatives_at_critical_temperature keeping_parent) as (D1 & D2 & D3).
  split; [exact Rc |]. split; [exact Sc |]. split; [exact Pc |].
  split; [exact (proj1 (D1 methane_rk Rc)) |].
  split; [exact (proj1 (D2 methane_srk Sc)) | exact (proj1 (D3 methane_pr Pc))].
Defined.
